(** * Property Sale API: a shallow embedding of [main.py] and [schemas.py]

    The handlers of [main.py] are embedded as state-passing functions over
    a document store, the pydantic models of [schemas.py] as records with
    their field constraints, and the properties of the specification are
    proved about them. *)

From Stdlib Require Import ZArith String Ascii List Floats.SpecFloat.
From stdpp Require Import base option list gmap strings fin_maps.

Open Scope string_scope.
Open Scope list_scope.
Open Scope Z_scope.

(** ** Hexadecimal text, as [bytes.fromhex] and [binascii.hexlify] *)

Module Hex.

(** One lower-case hexadecimal digit, for a value below 16. *)
Definition digit (n : N) : ascii :=
  (if n <? 10 then ascii_of_N (48 + n) else ascii_of_N (87 + n))%N.

(** The value of a hexadecimal digit, of either case. *)
Definition value (c : ascii) : option N :=
  let n := N_of_ascii c in
  (if (48 <=? n) && (n <=? 57) then Some (n - 48)
   else if (97 <=? n) && (n <=? 102) then Some (n - 87)
   else if (65 <=? n) && (n <=? 70) then Some (n - 55)
   else None)%N.

(** [binascii.hexlify]: two lower-case digits per byte. *)
Fixpoint hexlify (bs : list Byte.byte) : string :=
  match bs with
  | [] => EmptyString
  | b :: bs' =>
      let n := Byte.to_N b in
      String (digit (n / 16)) (String (digit (n mod 16)) (hexlify bs'))
  end.

(** ASCII whitespace, as [bytes.fromhex] skips it: tab, line feed,
    vertical tab, form feed, carriage return and space. *)
Definition is_space (c : ascii) : bool :=
  let n := N_of_ascii c in
  ((9 <=? n) && (n <=? 13) || (n =? 32))%N.

(** [bytes.fromhex]: pairs of hexadecimal digits, with ASCII whitespace
    allowed before each pair and at the end, not inside a pair; anything
    else is refused. *)
Fixpoint fromhex (s : string) : option (list Byte.byte) :=
  match s with
  | EmptyString => Some []
  | String h s' =>
      if is_space h then fromhex s'
      else
        match s' with
        | EmptyString => None
        | String l s'' =>
            match value h, value l with
            | Some hi, Some lo =>
                match Byte.of_N (16 * hi + lo), fromhex s'' with
                | Some b, Some bs => Some (b :: bs)
                | _, _ => None
                end
            | _, _ => None
            end
        end
  end.

End Hex.

(** ** [bson.ObjectId] *)

(** An ObjectId is its bytes ([ObjectId.binary]), 12 of them when the
    driver generates it. The constructor [ObjectId(str)] accepts a text of
    24 characters that [bytes.fromhex] accepts, and keeps the bytes it
    gives, fewer than 12 when the text holds whitespace; [str(oid)] is the
    lower-case hexadecimal text of the bytes. *)
Definition ObjectId := list Byte.byte.

Definition ObjectId_valid (oid : ObjectId) : Prop := List.length oid = 12%nat.

Definition ObjectId_of_str (id_str : string) : option ObjectId :=
  if Nat.eqb (String.length id_str) 24 then Hex.fromhex id_str else None.

Definition ObjectId_str (oid : ObjectId) : string := Hex.hexlify oid.

Global Instance byte_eq_dec : EqDecision Byte.byte.
Proof.
  intros a b. destruct (Byte.eqb a b) eqn:E.
  - left. by apply Byte.byte_dec_bl.
  - right. intros ->. by rewrite Byte.byte_dec_lb in E.
Defined.

Global Instance ObjectId_eq_dec : EqDecision ObjectId.
Proof. unfold ObjectId. apply _. Defined.

(** ** Documents and the store *)

(** The values a document of this program holds. Lists hold text only
    (the [images] and [tags] of a property). *)
Inductive Value :=
| VNone
| VStr (s : string)
| VInt (z : Z)
| VFloat (f : spec_float)
| VList (l : list string)
| VObjectId (oid : ObjectId).

Global Instance spec_float_eq_dec : EqDecision spec_float.
Proof. solve_decision. Defined.

Global Instance Value_eq_dec : EqDecision Value.
Proof. solve_decision. Defined.

(** A Python [dict] with text keys. *)
Abbreviation PyDict := (gmap string Value).

(** A stored document: the identifier the store keeps for it and its other
    fields. *)
Record Document := mkDocument {
  doc_id : ObjectId;
  doc_body : PyDict;
}.

(** The [dict] the driver hands to the program for a stored document. *)
Definition as_dict (d : Document) : PyDict :=
  <["_id" := VObjectId (doc_id d)]> (doc_body d).

(** A database: collections by name; a collection that was never written
    is empty. *)
Abbreviation Database := (gmap string (list Document)).

Definition collection (db : Database) (name : string) : list Document :=
  default [] (db !! name).

(** An equality filter [{field: value, ...}]: every listed field of the
    document equals the listed value. *)
Definition matches (q : PyDict) (d : Document) : bool :=
  bool_decide (map_Forall (fun k v => as_dict d !! k = Some v) q).

(** ** Handlers: store passing with HTTP errors *)

(** One validation error of a request body: the field and the error type. *)
Inductive ErrorType := Missing | GreaterThanEqual | UrlParsing | ValueError.

Definition ValidationError := list (string * ErrorType).

Inductive Response (A : Type) :=
| Ok (a : A)
| HTTPException (status_code : Z) (detail : string)
| RequestValidationError (errors : ValidationError).
Arguments Ok {A} a.
Arguments HTTPException {A} status_code detail.
Arguments RequestValidationError {A} errors.

Definition Handler (A : Type) : Type := Database -> Response A * Database.

Definition ret {A} (a : A) : Handler A := fun db => (Ok a, db).

Definition raise {A} (status_code : Z) (detail : string) : Handler A :=
  fun db => (HTTPException status_code detail, db).

Definition bind {A B} (m : Handler A) (k : A -> Handler B) : Handler B :=
  fun db =>
    match m db with
    | (Ok a, db') => k a db'
    | (HTTPException c d, db') => (HTTPException c d, db')
    | (RequestValidationError e, db') => (RequestValidationError e, db')
    end.

Declare Scope handler_scope.
Delimit Scope handler_scope with handler.
Notation "'let*' x ':=' m 'in' k" := (bind m (fun x => k))
  (at level 10, x name, m at level 100, k at level 200) : handler_scope.
Notation "m ';;' k" := (bind m (fun _ => k))
  (at level 100, k at level 200, right associativity) : handler_scope.

(** *** The driver's operations *)

(** [db[name].find_one(q)]: the first document that matches. *)
Definition find_one (name : string) (q : PyDict) : Handler (option Document) :=
  fun db => (Ok (head (filter (fun d => matches q d) (collection db name))), db).

(** [db[name].find(q)], read to the end. *)
Definition find (name : string) (q : PyDict) : Handler (list Document) :=
  fun db => (Ok (filter (fun d => matches q d) (collection db name)), db).

(** [db[name].insert_one(body)] for a body without [_id]: the driver
    generates the identifier [new_id], stores the document and reports the
    identifier. *)
Definition insert_one (name : string) (body : PyDict) (new_id : ObjectId)
  : Handler ObjectId :=
  fun db =>
    (Ok new_id, <[name := collection db name ++ [mkDocument new_id body]]> db).

(** [$set]: the listed fields take the listed values, the others stay. *)
Definition set_fields (upd : PyDict) (d : Document) : Document :=
  mkDocument (doc_id d) (upd ∪ doc_body d).

(** The first matching document of a collection updated, or [None] when no
    document matches. *)
Fixpoint update_first (q upd : PyDict) (c : list Document)
  : option (list Document) :=
  match c with
  | [] => None
  | d :: c' =>
      if matches q d then Some (set_fields upd d :: c')
      else option_map (cons d) (update_first q upd c')
  end.

(** [db[name].update_one(q, {"$set": upd}, upsert=True)] for a filter [q]
    without [_id]: the first matching document is updated; when none
    matches, a document made of the filter's fields and the set fields is
    inserted under the generated identifier [new_id]. *)
Definition update_one_upsert (name : string) (q upd : PyDict) (new_id : ObjectId)
  : Handler unit :=
  fun db =>
    match update_first q upd (collection db name) with
    | Some c' => (Ok tt, <[name := c']> db)
    | None =>
        (Ok tt, <[name := collection db name ++ [mkDocument new_id (upd ∪ q)]]> db)
    end.

(** Truth value of what [find_one] returns: [None] and the empty [dict]
    are false. *)
Definition truthy (doc : option Document) : option Document :=
  match doc with
  | Some d => if bool_decide (as_dict d = ∅) then None else Some d
  | None => None
  end.

(** Truth value of an optional text parameter: [None] and the empty text
    are false. *)
Definition truthy_str (s : option string) : option string :=
  match s with
  | Some EmptyString => None
  | Some t => Some t
  | None => None
  end.

(** ** The models of [schemas.py] *)

(** [BaseModel.model_dump]: the model as a [dict] of its fields. *)
Class BaseModel (A : Type) := model_dump : A -> PyDict.

(** The outcome of validating one field or one body: the errors found, or
    the value. *)
Definition Checked (A : Type) : Type := (ValidationError + A)%type.

(** Validation goes through every field and reports all errors. *)
Definition check_ap {A B} (f : Checked (A -> B)) (x : Checked A) : Checked B :=
  match f, x with
  | inr g, inr a => inr (g a)
  | inl e, inr _ => inl e
  | inr _, inl e => inl e
  | inl e1, inl e2 => inl (e1 ++ e2)
  end.
Infix "<*>" := check_ap (at level 50, left associativity).

(** The errors a validation reports; none when it yields a value. *)
Definition errors_of {A} (c : Checked A) : ValidationError :=
  match c with
  | inl errors => errors
  | inr _ => []
  end.

(** [Field(...)]: a required field. *)
Definition required {A} (loc : string) (v : option A) : Checked A :=
  match v with
  | Some a => inr a
  | None => inl [(loc, Missing)]
  end.

(** [Field(dflt)]: a field with a default. *)
Definition with_default {A} (dflt : A) (v : option A) : Checked A :=
  inr (default dflt v).

(** [int = Field(..., ge=0)]. *)
Definition int_ge0 (loc : string) (v : option Z) : Checked Z :=
  match v with
  | Some z => if 0 <=? z then inr z else inl [(loc, GreaterThanEqual)]
  | None => inl [(loc, Missing)]
  end.

(** [float = Field(..., ge=0)]: the IEEE comparison [f >= 0]. *)
Definition float_ge0 (loc : string) (v : option spec_float) : Checked spec_float :=
  match v with
  | Some f =>
      if SFleb (S754_zero false) f then inr f else inl [(loc, GreaterThanEqual)]
  | None => inl [(loc, Missing)]
  end.

Module Property.

Record t := mk {
  title : string;
  description : string;
  address : string;
  city : string;
  state : string;
  price : Z;
  bedrooms : Z;
  bathrooms : spec_float;
  area_sqft : Z;
  status : string;
  images : list string;
  tags : list string;
}.

(** The fields of a request body, each present or not. *)
Record input := mk_input {
  raw_title : option string;
  raw_description : option string;
  raw_address : option string;
  raw_city : option string;
  raw_state : option string;
  raw_price : option Z;
  raw_bedrooms : option Z;
  raw_bathrooms : option spec_float;
  raw_area_sqft : option Z;
  raw_status : option string;
  raw_images : option (list string);
  raw_tags : option (list string);
}.

Section Validation.
(** Whether a text is a well-formed [HttpUrl]. *)
Variable http_url : string -> bool.

(** [List[HttpUrl] = Field(default_factory=list)]: which lists are accepted.
    The accepted texts are kept as sent; the form in which the validated
    model holds them is not modelled. *)
Definition url_list (loc : string) (v : option (list string))
  : Checked (list string) :=
  let l := default [] v in
  match filter (fun u => http_url u = false) l with
  | [] => inr l
  | bad => inl ((fun _ => (loc, UrlParsing)) <$> bad)
  end.

Definition validate (r : input) : Checked t :=
  inr mk
    <*> required "title" (raw_title r)
    <*> required "description" (raw_description r)
    <*> required "address" (raw_address r)
    <*> required "city" (raw_city r)
    <*> required "state" (raw_state r)
    <*> int_ge0 "price" (raw_price r)
    <*> int_ge0 "bedrooms" (raw_bedrooms r)
    <*> float_ge0 "bathrooms" (raw_bathrooms r)
    <*> int_ge0 "area_sqft" (raw_area_sqft r)
    <*> with_default "available" (raw_status r)
    <*> url_list "images" (raw_images r)
    <*> with_default [] (raw_tags r).
End Validation.

Global Instance dump : BaseModel t := fun p =>
  <["title" := VStr (title p)]>
  (<["description" := VStr (description p)]>
  (<["address" := VStr (address p)]>
  (<["city" := VStr (city p)]>
  (<["state" := VStr (state p)]>
  (<["price" := VInt (price p)]>
  (<["bedrooms" := VInt (bedrooms p)]>
  (<["bathrooms" := VFloat (bathrooms p)]>
  (<["area_sqft" := VInt (area_sqft p)]>
  (<["status" := VStr (status p)]>
  (<["images" := VList (images p)]>
  (<["tags" := VList (tags p)]> ∅))))))))))).

End Property.

(** [Optional[str]] in a [dict]. *)
Definition VOpt (s : option string) : Value :=
  match s with
  | Some t => VStr t
  | None => VNone
  end.

Module Offer.

Record t := mk {
  property_id : string;
  full_name : string;
  email : string;
  phone : option string;
  amount : Z;
  message : option string;
  status : string;
}.

Record input := mk_input {
  raw_property_id : option string;
  raw_full_name : option string;
  raw_email : option string;
  raw_phone : option string;
  raw_amount : option Z;
  raw_message : option string;
  raw_status : option string;
}.

Section Validation.
(** Whether a text is a syntactically valid address ([EmailStr]). *)
Variable email_str : string -> bool.

(** [EmailStr]: which texts are accepted. The accepted text is kept as
    sent; the form in which the validated model holds it is not
    modelled. *)
Definition check_email (loc : string) (v : option string) : Checked string :=
  match v with
  | Some e => if email_str e then inr e else inl [(loc, ValueError)]
  | None => inl [(loc, Missing)]
  end.

Definition validate (r : input) : Checked t :=
  inr mk
    <*> required "property_id" (raw_property_id r)
    <*> required "full_name" (raw_full_name r)
    <*> check_email "email" (raw_email r)
    <*> inr (raw_phone r)
    <*> int_ge0 "amount" (raw_amount r)
    <*> inr (raw_message r)
    <*> with_default "pending" (raw_status r).
End Validation.

Global Instance dump : BaseModel t := fun o =>
  <["property_id" := VStr (property_id o)]>
  (<["full_name" := VStr (full_name o)]>
  (<["email" := VStr (email o)]>
  (<["phone" := VOpt (phone o)]>
  (<["amount" := VInt (amount o)]>
  (<["message" := VOpt (message o)]>
  (<["status" := VStr (status o)]> ∅)))))).

End Offer.

Module AdminSettings.

Record t := mk {
  primary_color : string;
  accent_color : string;
  hero_heading : string;
  hero_subheading : string;
  announcement : option string;
}.

(** [AdminSettings()]: every field at its default. *)
Definition defaults : t := {|
  primary_color := "#f97316";
  accent_color := "#111827";
  hero_heading := "Find your next place";
  hero_subheading := "Modern homes, transparent offers, secure management.";
  announcement :=
    Some "New listings dropping weekly — submit an offer in minutes!";
|}.

Global Instance dump : BaseModel t := fun a =>
  <["primary_color" := VStr (primary_color a)]>
  (<["accent_color" := VStr (accent_color a)]>
  (<["hero_heading" := VStr (hero_heading a)]>
  (<["hero_subheading" := VStr (hero_subheading a)]>
  (<["announcement" := VOpt (announcement a)]> ∅)))).

End AdminSettings.

(** [SettingsUpdate] of [main.py]: every field optional, unset by default. *)
Module SettingsUpdate.

Record t := mk {
  primary_color : option string;
  accent_color : option string;
  hero_heading : option string;
  hero_subheading : option string;
  announcement : option string;
}.

Global Instance dump : BaseModel t := fun u =>
  <["primary_color" := VOpt (primary_color u)]>
  (<["accent_color" := VOpt (accent_color u)]>
  (<["hero_heading" := VOpt (hero_heading u)]>
  (<["hero_subheading" := VOpt (hero_subheading u)]>
  (<["announcement" := VOpt (announcement u)]> ∅)))).

End SettingsUpdate.

(** ** The persistence gateway *)

(** Modelled from the spec: [create_document] of [database.py], which is
    not among the sources. "Serializes the validated model to a document,
    inserts it, returns the new identifier as a string. Side effect: one
    insert." [new_id] is the identifier the driver generates for the
    insert. *)
Definition create_document {A} `{BaseModel A}
    (collection_name : string) (data : A) (new_id : ObjectId) : Handler string :=
  (let* inserted_id := insert_one collection_name (model_dump data) new_id in
   ret (ObjectId_str inserted_id))%handler.

(** Modelled from the spec: [get_documents] of [database.py], which is not
    among the sources. "Returns all documents matching an exact-match
    filter (mapping of field name to required value; empty filter = all
    documents), in store-native order. Side effect: none." *)
Definition get_documents (collection_name : string) (filter_dict : PyDict)
  : Handler (list Document) :=
  find collection_name filter_dict.

(** ** The handlers of [main.py] *)

(** [d["_id"] = str(d["_id"])] on the [dict] of a stored document. *)
Definition serialize (d : Document) : PyDict :=
  <["_id" := VStr (ObjectId_str (doc_id d))]> (as_dict d).

Definition ensure_object_id (id_str : string) : Handler ObjectId :=
  match ObjectId_of_str id_str with
  | Some oid => ret oid
  | None => raise 400 "Invalid id"
  end.

Definition list_properties (city status : option string) : Handler (list PyDict) :=
  let filter_q : PyDict := ∅ in
  let filter_q :=
    match truthy_str city with
    | Some c => <["city" := VStr c]> filter_q
    | None => filter_q
    end in
  let filter_q :=
    match truthy_str status with
    | Some s => <["status" := VStr s]> filter_q
    | None => filter_q
    end in
  (let* docs := get_documents "property" filter_q in
   ret (serialize <$> docs))%handler.

Definition get_property (prop_id : string) : Handler PyDict :=
  (let* oid := ensure_object_id prop_id in
   let* doc := find_one "property" {["_id" := VObjectId oid]} in
   match truthy doc with
   | None => raise 404 "Property not found"
   | Some d => ret (serialize d)
   end)%handler.

(** [new_id] is the identifier the driver generates if the offer is
    inserted. *)
Definition submit_offer (offer : Offer.t) (new_id : ObjectId) : Handler PyDict :=
  (let* oid := ensure_object_id (Offer.property_id offer) in
   let* found := find_one "property" {["_id" := VObjectId oid]} in
   match truthy found with
   | None => raise 404 "Property not found for this offer"
   | Some _ =>
       let* offer_id := create_document "offer" offer new_id in
       ret (<["id" := VStr offer_id]> (<["status" := VStr "submitted"]> ∅))
   end)%handler.

Definition list_offers (property_id : option string) : Handler (list PyDict) :=
  let q : PyDict := ∅ in
  let q :=
    match truthy_str property_id with
    | Some p => <["property_id" := VStr p]> q
    | None => q
    end in
  (let* docs := get_documents "offer" q in
   ret (serialize <$> docs))%handler.

Definition read_settings : Handler PyDict :=
  (let* doc := find_one "adminsettings" ∅ in
   match truthy doc with
   | None => ret (model_dump AdminSettings.defaults)
   | Some d => ret (serialize d)
   end)%handler.

(** [{k: v for k, v in payload.model_dump().items() if v is not None}],
    the [update_data] of [update_settings]. *)
Definition update_data (payload : SettingsUpdate.t) : PyDict :=
  filter (fun kv => kv.2 <> VNone) (model_dump payload).

(** [new_id] is the identifier the driver generates if the upsert
    inserts. *)
Definition update_settings (payload : SettingsUpdate.t) (new_id : ObjectId)
  : Handler PyDict :=
  let update_data := update_data payload in
  if bool_decide (update_data = ∅) then read_settings
  else
    (update_one_upsert "adminsettings" ∅ update_data new_id ;;
     read_settings)%handler.

(** A handler with a body parameter: the body is validated into the model
    before the handler runs, and an invalid body is answered with the
    validation errors. *)
Definition from_body {A B} (body : Checked A) (handler : A -> Handler B)
  : Handler B :=
  match body with
  | inl errors => fun db => (RequestValidationError errors, db)
  | inr model => handler model
  end.

(** [POST /offers]. *)
Definition post_offers (email_str : string -> bool) (body : Offer.input)
    (new_id : ObjectId) : Handler PyDict :=
  from_body (Offer.validate email_str body) (fun offer => submit_offer offer new_id).

(** The documents of a collection carrying a given identifier. *)
Definition with_id (oid : ObjectId) (c : list Document) : list Document :=
  filter (fun d => matches {["_id" := VObjectId oid]} d) c.

(** The identifiers in use in a collection. *)
Definition ids (c : list Document) : list ObjectId := doc_id <$> c.

(** An answered document carries the stored document [d]: under [_id] the
    text of the identifier of [d], a text that decodes to the bytes of that
    identifier, and every other field as [d] holds it. *)
Definition serialized_from (d : Document) (doc : PyDict) : Prop :=
  doc !! "_id" = Some (VStr (ObjectId_str (doc_id d)))
  /\ Hex.fromhex (ObjectId_str (doc_id d)) = Some (doc_id d)
  /\ forall k, k <> "_id" -> doc !! k = doc_body d !! k.

(** A body fails validation with a [ge=0] error at [loc] and is answered
    with the validation errors, whatever the handler, the store being left
    as it was. *)
Definition rejected_before_store {A} (body : Checked A) (loc : string) : Prop :=
  exists errors,
    body = inl errors
    /\ (loc, GreaterThanEqual) ∈ errors
    /\ forall (B : Type) (handler : A -> Handler B) (db : Database),
        from_body body handler db = (RequestValidationError errors, db).

(** Whether a document meets the condition an optional text parameter
    puts on a field: a parameter that is absent or the empty text puts
    none; another text must be the field's value. *)
Definition condition_holds (field : string) (param : option string)
    (d : Document) : bool :=
  match param with
  | None => true
  | Some EmptyString => true
  | Some s => bool_decide (as_dict d !! field = Some (VStr s))
  end.

(** ** Sample data, after the demo data of [seed_dummy_data] *)

Module Sample.

Definition demo_imgs : list string :=
  [ "https://images.unsplash.com/photo-1505692794403-34d4982f88aa";
    "https://images.unsplash.com/photo-1568605114967-8130f3a36994";
    "https://images.unsplash.com/photo-1523217582562-09d0def993a6" ].

(** The first demo property; [bathrooms] is 1.5. *)
Definition loft : Property.t := {|
  Property.title := "Sunny Modern Loft";
  Property.description :=
    "Open-plan loft with floor-to-ceiling windows and polished concrete floors.";
  Property.address := "123 Orange Ave";
  Property.city := "Los Angeles";
  Property.state := "CA";
  Property.price := 975000;
  Property.bedrooms := 2;
  Property.bathrooms := S754_finite false 3 (-1);
  Property.area_sqft := 1200;
  Property.status := "available";
  Property.images := demo_imgs;
  Property.tags := ["loft"; "downtown"];
|}.

(** The second demo property; [bathrooms] is 2. *)
Definition home : Property.t := {|
  Property.title := "Cozy Suburban Home";
  Property.description :=
    "Family-friendly neighborhood, renovated kitchen, large backyard.";
  Property.address := "456 Grove St";
  Property.city := "Austin";
  Property.state := "TX";
  Property.price := 620000;
  Property.bedrooms := 3;
  Property.bathrooms := S754_finite false 1 1;
  Property.area_sqft := 1800;
  Property.status := "available";
  Property.images := demo_imgs;
  Property.tags := ["suburbs"; "yard"];
|}.

Definition loft_id : ObjectId := replicate 12 Byte.x1a.
Definition home_id : ObjectId := replicate 12 Byte.x2b.
Definition offer_id : ObjectId := replicate 12 Byte.x3c.
Definition settings_id : ObjectId := replicate 12 Byte.x4d.

(** An offer on the first demo property. *)
Definition loft_offer : Offer.t := {|
  Offer.property_id := "1a1a1a1a1a1a1a1a1a1a1a1a";
  Offer.full_name := "Ada Buyer";
  Offer.email := "ada@example.com";
  Offer.phone := None;
  Offer.amount := 950000;
  Offer.message := Some "Ready to close this month.";
  Offer.status := "pending";
|}.

(** An offer on a property that is not stored. *)
Definition stray_offer : Offer.t := {|
  Offer.property_id := "2b2b2b2b2b2b2b2b2b2b2b2b";
  Offer.full_name := "Ada Buyer";
  Offer.email := "ada@example.com";
  Offer.phone := None;
  Offer.amount := 600000;
  Offer.message := None;
  Offer.status := "pending";
|}.

(** A stand-in for the URL check: the text starts with a web scheme. *)
Definition http_url (u : string) : bool :=
  String.prefix "http://" u || String.prefix "https://" u.

(** A stand-in for the address check: the text holds an at sign. *)
Definition email_str (e : string) : bool :=
  bool_decide ("@"%char ∈ String.list_ascii_of_string e).

(** The settings of the demo data. *)
Definition demo_settings : AdminSettings.t := {|
  AdminSettings.primary_color := "#f97316";
  AdminSettings.accent_color := "#111827";
  AdminSettings.hero_heading := "Discover vibrant homes";
  AdminSettings.hero_subheading :=
    "Browse, make offers, and manage listings seamlessly.";
  AdminSettings.announcement :=
    Some "Welcome! This site uses demo data for preview.";
|}.

(** A payload that sets the announcement only. *)
Definition announce : SettingsUpdate.t := {|
  SettingsUpdate.primary_color := None;
  SettingsUpdate.accent_color := None;
  SettingsUpdate.hero_heading := None;
  SettingsUpdate.hero_subheading := None;
  SettingsUpdate.announcement := Some "Open house on Sunday";
|}.

(** A store that holds the demo settings and nothing else. *)
Definition with_settings : Database :=
  {["adminsettings" := [mkDocument settings_id (model_dump demo_settings)]]}.

(** A store that holds the first demo property and nothing else. *)
Definition one_property : Database :=
  {["property" := [mkDocument loft_id (model_dump loft)]]}.

End Sample.

(** ** The other handlers of [main.py] *)

(** What [db.list_collection_names()] does: it returns the names or raises
    an exception with a message. *)
Inductive CollectionNames :=
| Returns (names : list string)
| Raises (message : string).

(** [GET /test]. [db] is [None] when there is no store; [DATABASE_URL] and
    [DATABASE_NAME] are what [os.getenv] gives. The exception text is cut
    by characters; for a text of the ASCII range these are the characters
    of the string. *)
Definition test_database (db : option CollectionNames)
    (DATABASE_URL DATABASE_NAME : option string) : PyDict :=
  let response : PyDict :=
    <["backend" := VStr "✅ Running"]>
    (<["database" := VStr "❌ Not Available"]>
    (<["database_url" := VNone]>
    (<["database_name" := VNone]>
    (<["connection_status" := VStr "Not Connected"]>
    (<["collections" := VList []]> ∅))))) in
  match db with
  | None => response
  | Some names =>
      let response := <["database" := VStr "✅ Available"]> response in
      let response :=
        <["database_url" :=
            VStr match truthy_str DATABASE_URL with
                 | Some _ => "✅ Set"
                 | None => "❌ Not Set"
                 end]>
          response in
      let response :=
        <["database_name" :=
            VStr match truthy_str DATABASE_NAME with
                 | Some _ => "✅ Set"
                 | None => "❌ Not Set"
                 end]>
          response in
      let response := <["connection_status" := VStr "Connected"]> response in
      match names with
      | Returns collections =>
          let response := <["collections" := VList (take 10 collections)]> response in
          <["database" := VStr "✅ Connected & Working"]> response
      | Raises message =>
          <["database" := VStr ("❌ Error: " ++ String.substring 0 80 message)]>
            response
      end
  end.


(** [str.lower] on one character of the ASCII range. *)
Definition lower_char (c : ascii) : ascii :=
  let n := N_of_ascii c in
  (if (65 <=? n) && (n <=? 90) then ascii_of_N (n + 32) else c)%N.

(** [str.lower] on a text of the ASCII range. *)
Fixpoint lower (s : string) : string :=
  match s with
  | EmptyString => EmptyString
  | String c s' => String (lower_char c) (lower s')
  end.

(** The fields of the first settings document, none when there is no
    document. *)
Definition stored_settings (db : Database) : PyDict :=
  match collection db "adminsettings" with
  | d :: _ => doc_body d
  | [] => ∅
  end.

(** * Properties *)

(** ** Identifiers and their text *)

Lemma hex_pair (b : Byte.byte) (rest : string) :
  Hex.fromhex
    (String (Hex.digit (Byte.to_N b / 16))
       (String (Hex.digit (Byte.to_N b mod 16)) rest))
  = match Hex.fromhex rest with
    | Some bs => Some (b :: bs)
    | None => None
    end.
Proof. destruct b; reflexivity. Qed.

Lemma hex_fromhex_hexlify (bs : list Byte.byte) :
  Hex.fromhex (Hex.hexlify bs) = Some bs.
Proof.
  induction bs as [|b bs IH]; [reflexivity|].
  cbn [Hex.hexlify]. by rewrite hex_pair, IH.
Qed.

Lemma hex_length_hexlify (bs : list Byte.byte) :
  String.length (Hex.hexlify bs) = (2 * List.length bs)%nat.
Proof. induction bs as [|b bs IH]; cbn; [reflexivity|]. rewrite IH. lia. Qed.

(** Each byte takes two characters of the text, and any whitespace comes
    on top. *)
Lemma hex_fromhex_length (s : string) (bs : list Byte.byte) :
  Hex.fromhex s = Some bs -> (2 * List.length bs <= String.length s)%nat.
Proof.
  assert (Hn : forall (n : nat) (t : string) (cs : list Byte.byte),
             (String.length t <= n)%nat -> Hex.fromhex t = Some cs ->
             (2 * List.length cs <= String.length t)%nat).
  { induction n as [|n IH]; intros t cs Hle.
    - destruct t; cbn in Hle; [|lia]. intros [= <-]. cbn. lia.
    - destruct t as [|h t']; cbn [Hex.fromhex].
      + intros [= <-]. cbn. lia.
      + cbn in Hle. destruct (Hex.is_space h).
        * intros Ht. specialize (IH t' cs ltac:(lia) Ht). cbn. lia.
        * destruct t' as [|l t'']; [discriminate|].
          destruct (Hex.value h), (Hex.value l); try discriminate.
          destruct (Byte.of_N _); try discriminate.
          destruct (Hex.fromhex t'') as [cs'|] eqn:E; try discriminate.
          intros [= <-]. cbn in Hle |- *.
          specialize (IH t'' cs' ltac:(lia) E). lia. }
  apply (Hn (String.length s)). lia.
Qed.

Lemma ObjectId_of_str_str (oid : ObjectId) :
  ObjectId_valid oid -> ObjectId_of_str (ObjectId_str oid) = Some oid.
Proof.
  unfold ObjectId_valid, ObjectId_of_str, ObjectId_str. intros H.
  rewrite hex_length_hexlify, H. cbn. apply hex_fromhex_hexlify.
Qed.

(** An accepted text has 24 characters and gives at most 12 bytes. *)
Lemma ObjectId_of_str_length (s : string) (oid : ObjectId) :
  ObjectId_of_str s = Some oid ->
  String.length s = 24%nat /\ Hex.fromhex s = Some oid
  /\ (List.length oid <= 12)%nat.
Proof.
  unfold ObjectId_of_str.
  destruct (Nat.eqb (String.length s) 24) eqn:E; [|discriminate].
  apply Nat.eqb_eq in E. intros H. split; [exact E|]. split; [exact H|].
  apply hex_fromhex_length in H. lia.
Qed.

(** ** Facts about the store *)

Lemma as_dict_nonempty (d : Document) : as_dict d <> ∅.
Proof. apply insert_non_empty. Qed.

Lemma truthy_Some (d : Document) : truthy (Some d) = Some d.
Proof.
  unfold truthy. rewrite bool_decide_eq_false_2; [done|apply as_dict_nonempty].
Qed.

Lemma matches_empty (d : Document) : matches ∅ d = true.
Proof. apply bool_decide_eq_true_2, map_Forall_empty. Qed.

Lemma matches_id (oid : ObjectId) (d : Document) :
  matches {["_id" := VObjectId oid]} d = bool_decide (doc_id d = oid).
Proof.
  unfold matches, as_dict. apply bool_decide_ext.
  rewrite map_Forall_singleton, lookup_insert_eq. split; congruence.
Qed.

Lemma collection_insert (db : Database) (name : string) (c : list Document) :
  collection (<[name := c]> db) name = c.
Proof. unfold collection. by rewrite lookup_insert_eq. Qed.

Lemma collection_insert_ne (db : Database) (name other : string) (c : list Document) :
  name <> other -> collection (<[name := c]> db) other = collection db other.
Proof. intros Hne. unfold collection. by rewrite lookup_insert_ne. Qed.

Lemma with_id_absent (oid : ObjectId) (c : list Document) :
  oid ∉ ids c -> with_id oid c = [].
Proof.
  unfold with_id, ids. induction c as [|d c IH]; intros Hc; [done|].
  rewrite fmap_cons in Hc. apply not_elem_of_cons in Hc as [Hd Hc].
  rewrite filter_cons_False; [by apply IH|].
  by rewrite matches_id, bool_decide_spec.
Qed.

Lemma with_id_present (oid : ObjectId) (c : list Document) :
  oid ∈ ids c ->
  exists e, head (with_id oid c) = Some e /\ e ∈ c /\ doc_id e = oid.
Proof.
  unfold with_id, ids. induction c as [|x c IH]; intros Hin; [by inversion Hin|].
  destruct (decide (doc_id x = oid)) as [Hx|Hx].
  - exists x. rewrite filter_cons_True.
    + split; [done|]. split; [by left|done].
    + by rewrite matches_id, bool_decide_spec.
  - rewrite filter_cons_False.
    + rewrite fmap_cons in Hin. apply elem_of_cons in Hin as [Hin|Hin]; [done|].
      destruct (IH Hin) as (e & He & Hec & Hei).
      exists e. split; [done|]. split; [by right|done].
    + by rewrite matches_id, bool_decide_spec.
Qed.

(** ** Get Property *)

(** What [get_property] computes, by the decoding of the identifier and
    the first document that carries it. *)
Lemma get_property_unfold (prop_id : string) (db : Database) :
  get_property prop_id db =
  match ObjectId_of_str prop_id with
  | None => (HTTPException 400 "Invalid id", db)
  | Some oid =>
      match head (with_id oid (collection db "property")) with
      | None => (HTTPException 404 "Property not found", db)
      | Some d => (Ok (serialize d), db)
      end
  end.
Proof.
  unfold get_property, bind, ensure_object_id, find_one, with_id.
  destruct (ObjectId_of_str prop_id) as [oid|]; cbn; [|done].
  destruct (head _) as [d|]; [|done].
  by rewrite truthy_Some.
Qed.

Lemma serialize_lookup_id (d : Document) :
  serialize d !! "_id" = Some (VStr (ObjectId_str (doc_id d))).
Proof. unfold serialize. by rewrite lookup_insert_eq. Qed.

Lemma serialize_lookup_ne (d : Document) (k : string) :
  k <> "_id" -> serialize d !! k = doc_body d !! k.
Proof.
  intros Hk. unfold serialize, as_dict. by rewrite !lookup_insert_ne.
Qed.

Lemma serialize_serialized_from (d : Document) : serialized_from d (serialize d).
Proof.
  split; [apply serialize_lookup_id|].
  split; [apply hex_fromhex_hexlify|].
  intros k Hk. by apply serialize_lookup_ne.
Qed.

(** X18. What Get Property answers, case by case: 400 exactly when the decoder
    refuses the text, and then never 404; 404 when the text decodes and no
    stored property carries the identifier; otherwise a stored property
    that carries it, with the text of its identifier under [_id] and its
    other fields as stored. The store is left as it was. *)
Theorem get_property_outcomes (prop_id : string) (db : Database) :
  ((exists detail, fst (get_property prop_id db) = HTTPException 400 detail)
     <-> ObjectId_of_str prop_id = None)
  /\ (ObjectId_of_str prop_id = None ->
      get_property prop_id db = (HTTPException 400 "Invalid id", db))
  /\ (forall oid, ObjectId_of_str prop_id = Some oid ->
      oid ∉ ids (collection db "property") ->
      get_property prop_id db = (HTTPException 404 "Property not found", db))
  /\ (forall oid, ObjectId_of_str prop_id = Some oid ->
      oid ∈ ids (collection db "property") ->
      exists e doc,
        e ∈ collection db "property" /\ doc_id e = oid /\
        get_property prop_id db = (Ok doc, db) /\
        serialized_from e doc)
  /\ snd (get_property prop_id db) = db.
Proof.
  rewrite get_property_unfold.
  destruct (ObjectId_of_str prop_id) as [oid|] eqn:Hoid.
  - split; [|split; [|split; [|split]]].
    + split; [|discriminate]. intros [detail H]. by destruct (head _).
    + discriminate.
    + intros o [= <-] Hnone. by rewrite with_id_absent.
    + intros o [= <-] Hin.
      destruct (with_id_present _ _ Hin) as (e & -> & He & Hei).
      exists e, (serialize e). split; [exact He|]. split; [exact Hei|].
      split; [reflexivity|]. apply serialize_serialized_from.
    + by destruct (head _).
  - repeat split; try done. by exists "Invalid id".
Qed.

(** C3. Get Property does not answer 400 for every text that is no
    identifier of the store: a text of 22 hexadecimal digits followed by
    two spaces is accepted by the decoder, as 11 bytes, and is answered
    404; so is every text that decodes to other than 12 bytes, in a store
    whose properties carry 12-byte identifiers. *)
Theorem get_property_padded_id :
  ObjectId_of_str "1a1a1a1a1a1a1a1a1a1a1a  " = Some (replicate 11 Byte.x1a)
  /\ List.length (replicate 11 Byte.x1a) = 11%nat
  /\ get_property "1a1a1a1a1a1a1a1a1a1a1a  " Sample.one_property
     = (HTTPException 404 "Property not found", Sample.one_property)
  /\ (forall (db : Database) (prop_id : string) (oid : ObjectId),
      ObjectId_of_str prop_id = Some oid ->
      List.length oid <> 12%nat ->
      Forall ObjectId_valid (ids (collection db "property")) ->
      get_property prop_id db = (HTTPException 404 "Property not found", db)).
Proof.
  split; [reflexivity|]. split; [reflexivity|]. split; [reflexivity|].
  intros db prop_id oid Hoid Hlen Hvalid.
  rewrite get_property_unfold, Hoid, with_id_absent; [reflexivity|].
  intros Hin. rewrite Forall_forall in Hvalid. by apply Hlen, Hvalid.
Qed.

(** ** Create, then get *)

Lemma create_document_unfold {A} `{BaseModel A}
    (name : string) (data : A) (new_id : ObjectId) (db : Database) :
  create_document name data new_id db =
  (Ok (ObjectId_str new_id),
   <[name := collection db name ++ [mkDocument new_id (model_dump data)]]> db).
Proof. reflexivity. Qed.

Lemma with_id_fresh (oid : ObjectId) (c : list Document) (body : PyDict) :
  oid ∉ ids c ->
  with_id oid (c ++ [mkDocument oid body]) = [mkDocument oid body].
Proof.
  intros Hc. unfold with_id. rewrite filter_app.
  fold (with_id oid c). rewrite (with_id_absent _ _ Hc), app_nil_l.
  rewrite filter_cons_True; [done|].
  by rewrite matches_id, bool_decide_spec.
Qed.

(** C1. Creating a property and reading it back by the returned identifier
    yields a document that agrees with the model on each of its twelve
    fields, and carries the new identifier under [_id], a key that is none
    of the model's fields. *)
Theorem create_then_get_property
    (p : Property.t) (new_id : ObjectId) (db : Database) :
  ObjectId_valid new_id ->
  new_id ∉ ids (collection db "property") ->
  exists (id : string) (db' : Database) (doc : PyDict),
    create_document "property" p new_id db = (Ok id, db') /\
    get_property id db' = (Ok doc, db') /\
    doc !! "title" = Some (VStr (Property.title p)) /\
    doc !! "description" = Some (VStr (Property.description p)) /\
    doc !! "address" = Some (VStr (Property.address p)) /\
    doc !! "city" = Some (VStr (Property.city p)) /\
    doc !! "state" = Some (VStr (Property.state p)) /\
    doc !! "price" = Some (VInt (Property.price p)) /\
    doc !! "bedrooms" = Some (VInt (Property.bedrooms p)) /\
    doc !! "bathrooms" = Some (VFloat (Property.bathrooms p)) /\
    doc !! "area_sqft" = Some (VInt (Property.area_sqft p)) /\
    doc !! "status" = Some (VStr (Property.status p)) /\
    doc !! "images" = Some (VList (Property.images p)) /\
    doc !! "tags" = Some (VList (Property.tags p)) /\
    doc !! "_id" = Some (VStr id) /\
    model_dump p !! "_id" = None /\
    ObjectId_of_str id = Some new_id.
Proof.
  intros Hvalid Hfresh.
  eexists _, _, _. split; [apply create_document_unfold|].
  split.
  { rewrite get_property_unfold, (ObjectId_of_str_str _ Hvalid).
    rewrite collection_insert, (with_id_fresh _ _ _ Hfresh). reflexivity. }
  rewrite serialize_lookup_id, !serialize_lookup_ne by done. cbn [doc_body doc_id].
  rewrite (ObjectId_of_str_str _ Hvalid).
  unfold model_dump, Property.dump.
  repeat split; by simplify_map_eq.
Qed.

Lemma create_then_get_property_witness :
  exists (id : string) (db' : Database) (doc : PyDict),
    create_document "property" Sample.home Sample.home_id Sample.one_property
      = (Ok id, db') /\
    get_property id db' = (Ok doc, db') /\
    doc !! "title" = Some (VStr "Cozy Suburban Home") /\
    doc !! "_id" = Some (VStr "2b2b2b2b2b2b2b2b2b2b2b2b").
Proof.
  destruct (create_then_get_property Sample.home Sample.home_id Sample.one_property)
    as (id & db' & doc & Hc & Hg & Ht & H).
  - reflexivity.
  - apply (bool_decide_unpack _). vm_compute. exact I.
  - exists id, db', doc. repeat split; try assumption.
    rewrite create_document_unfold in Hc. injection Hc as <- _.
    apply H.
Defined.

(** ** Listing with optional filters *)

Lemma matches_insert (q : PyDict) (k s : string) (d : Document) :
  q !! k = None ->
  matches (<[k := VStr s]> q) d
  = bool_decide (as_dict d !! k = Some (VStr s)) && matches q d.
Proof.
  intros Hk. unfold matches.
  apply eq_true_iff_eq. rewrite andb_true_iff.
  rewrite <- !Is_true_true, !bool_decide_spec.
  by rewrite map_Forall_insert.
Qed.

Lemma filter_matches_empty (c : list Document) :
  filter (fun d => matches ∅ d) c = c.
Proof.
  induction c as [|d c IH]; [done|].
  rewrite filter_cons_True; [by rewrite IH|].
  by rewrite matches_empty.
Qed.

Lemma list_properties_unfold (city status : option string) (db : Database) :
  list_properties city status db =
  (Ok (serialize <$>
         filter (fun d => condition_holds "city" city d
                          && condition_holds "status" status d)
                (collection db "property")), db).
Proof.
  unfold list_properties, bind, get_documents, find, ret. cbn. do 3 f_equal.
  apply list_filter_iff. intros d.
  destruct city as [[|a c]|], status as [[|b s]|]; cbn [truthy_str condition_holds];
    rewrite ?matches_insert, ?matches_empty by done;
    rewrite ?andb_true_r, ?andb_true_l; try done.
  by rewrite andb_comm.
Qed.

Lemma list_offers_unfold (property_id : option string) (db : Database) :
  list_offers property_id db =
  (Ok (serialize <$>
         filter (fun d => condition_holds "property_id" property_id d)
                (collection db "offer")), db).
Proof.
  unfold list_offers, bind, get_documents, find, ret. cbn. do 3 f_equal.
  apply list_filter_iff. intros d.
  destruct property_id as [[|a c]|]; cbn [truthy_str condition_holds];
    rewrite ?matches_insert, ?matches_empty by done;
    rewrite ?andb_true_r, ?andb_true_l; done.
Qed.

(** C7, amended. List Properties and List Offers keep the documents that
    meet, for each parameter given as a text that is not empty, equality of
    the field with that text; a parameter that is absent or the empty text
    puts no condition, so that without parameters every document of the
    kind is returned. The result is a list, possibly empty, never an error:
    List Offers does not decode [property_id], whatever its text. The
    store is left as it was. *)
Theorem list_filters (db : Database) :
  (forall city status,
     list_properties city status db =
     (Ok (serialize <$>
            filter (fun d => condition_holds "city" city d
                             && condition_holds "status" status d)
                   (collection db "property")), db))
  /\ (forall property_id,
     list_offers property_id db =
     (Ok (serialize <$>
            filter (fun d => condition_holds "property_id" property_id d)
                   (collection db "offer")), db))
  /\ list_properties None None db = (Ok (serialize <$> collection db "property"), db)
  /\ list_offers None db = (Ok (serialize <$> collection db "offer"), db)
  /\ (forall property_id status_code detail,
      fst (list_offers property_id db) <> HTTPException status_code detail).
Proof.
  split; [intros; apply list_properties_unfold|].
  split; [intros; apply list_offers_unfold|].
  split; [|split].
  - rewrite list_properties_unfold. cbn [condition_holds andb].
    do 3 f_equal. induction (collection db "property") as [|d c IH]; [done|].
    by rewrite filter_cons_True, IH.
  - rewrite list_offers_unfold. cbn [condition_holds].
    do 3 f_equal. induction (collection db "offer") as [|d c IH]; [done|].
    by rewrite filter_cons_True, IH.
  - intros property_id status_code detail. by rewrite list_offers_unfold.
Qed.

(** C7 as stated fails: with [city] provided as the empty text, no
    condition is put on [city], and a property of Los Angeles is listed. *)
Lemma list_properties_empty_city_counterexample :
  exists doc,
    list_properties (Some "") None Sample.one_property
      = (Ok [doc], Sample.one_property)
    /\ doc !! "city" = Some (VStr "Los Angeles")
    /\ doc !! "city" <> Some (VStr "").
Proof.
  eexists. split; [reflexivity|]. split; [reflexivity|discriminate].
Qed.

(** ** Submit Offer *)

Lemma submit_offer_unfold (offer : Offer.t) (new_id : ObjectId) (db : Database) :
  submit_offer offer new_id db =
  match ObjectId_of_str (Offer.property_id offer) with
  | None => (HTTPException 400 "Invalid id", db)
  | Some oid =>
      match head (with_id oid (collection db "property")) with
      | None => (HTTPException 404 "Property not found for this offer", db)
      | Some _ =>
          (Ok (<["id" := VStr (ObjectId_str new_id)]>
                 (<["status" := VStr "submitted"]> ∅)),
           <["offer" := collection db "offer"
                        ++ [mkDocument new_id (model_dump offer)]]> db)
      end
  end.
Proof.
  unfold submit_offer, bind, ensure_object_id, find_one, with_id.
  destruct (ObjectId_of_str _) as [oid|]; cbn; [|done].
  destruct (head _) as [d|]; [|done].
  by rewrite truthy_Some.
Qed.

Lemma ObjectId_str_inj (a b : ObjectId) : ObjectId_str a = ObjectId_str b -> a = b.
Proof.
  unfold ObjectId_str. intros H.
  pose proof (hex_fromhex_hexlify a) as Ha. rewrite H, hex_fromhex_hexlify in Ha.
  congruence.
Qed.

(** C2. For an offer whose [property_id] decodes to a store identifier:
    if no stored property carries it, Submit Offer answers 404 and the
    store is unchanged; if one does, exactly one offer document is
    appended to the offers under the generated identifier, the other
    collections are unchanged, the answer is that identifier with the
    status [submitted], the identifier is none of the earlier offers' when
    the generated one is new to the collection, and List Offers filtered by
    the offer's [property_id] returns what it returned before followed by
    the new offer. *)
Theorem submit_offer_outcomes
    (offer : Offer.t) (new_id oid : ObjectId) (db : Database) :
  ObjectId_of_str (Offer.property_id offer) = Some oid ->
  (oid ∉ ids (collection db "property") ->
   submit_offer offer new_id db
   = (HTTPException 404 "Property not found for this offer", db))
  /\ (oid ∈ ids (collection db "property") ->
      exists (db' : Database) (stored : Document) (earlier : list PyDict),
        submit_offer offer new_id db
        = (Ok (<["id" := VStr (ObjectId_str new_id)]>
                 (<["status" := VStr "submitted"]> ∅)), db')
        /\ stored = mkDocument new_id (model_dump offer)
        /\ collection db' "offer" = collection db "offer" ++ [stored]
        /\ (forall name, name <> "offer" -> collection db' name = collection db name)
        /\ serialize stored !! "_id" = Some (VStr (ObjectId_str new_id))
        /\ (new_id ∉ ids (collection db "offer") ->
            Forall (fun doc => doc !! "_id" <> Some (VStr (ObjectId_str new_id)))
                   (serialize <$> collection db "offer"))
        /\ list_offers (Some (Offer.property_id offer)) db = (Ok earlier, db)
        /\ list_offers (Some (Offer.property_id offer)) db'
           = (Ok (earlier ++ [serialize stored]), db')).
Proof.
  intros Hoid. rewrite submit_offer_unfold, Hoid. split.
  - intros Hnone. by rewrite with_id_absent.
  - intros Hin. destruct (with_id_present _ _ Hin) as (e & -> & _ & _).
    eexists _, _, _. split; [reflexivity|]. split; [reflexivity|].
    split; [apply collection_insert|].
    split; [intros name Hne; by apply collection_insert_ne|].
    split; [apply serialize_lookup_id|].
    split.
    { intros Hfresh. apply Forall_fmap, Forall_forall. intros d Hd.
      cbn. rewrite serialize_lookup_id. intros [= Heq%ObjectId_str_inj].
      apply Hfresh. unfold ids. rewrite <- Heq. by apply list_elem_of_fmap_2. }
    split; [apply list_offers_unfold|].
    rewrite list_offers_unfold, collection_insert, filter_app, fmap_app.
    do 3 f_equal. rewrite filter_cons_True; [done|].
    destruct (Offer.property_id offer) as [|a s] eqn:Hp; [done|].
    cbn [condition_holds]. apply bool_decide_spec.
    unfold as_dict, model_dump, Offer.dump. cbn [doc_body doc_id].
    rewrite Hp. by simplify_map_eq.
Qed.

Lemma submit_offer_outcomes_witness :
  submit_offer Sample.stray_offer Sample.offer_id Sample.one_property
  = (HTTPException 404 "Property not found for this offer", Sample.one_property)
  /\ exists (db' : Database) (stored : Document),
      fst (submit_offer Sample.loft_offer Sample.offer_id Sample.one_property)
      = Ok (<["id" := VStr "3c3c3c3c3c3c3c3c3c3c3c3c"]>
              (<["status" := VStr "submitted"]> ∅))
      /\ list_offers (Some "1a1a1a1a1a1a1a1a1a1a1a1a") db'
         = (Ok [serialize stored], db').
Proof.
  split.
  - apply (submit_offer_outcomes Sample.stray_offer Sample.offer_id Sample.home_id
             Sample.one_property); [reflexivity|].
    apply (bool_decide_unpack _). vm_compute. exact I.
  - destruct (submit_offer_outcomes Sample.loft_offer Sample.offer_id Sample.loft_id
                Sample.one_property) as [_ H]; [reflexivity|].
    destruct H as (db' & stored & earlier & H1 & _ & _ & _ & _ & _ & H2 & H3).
    { apply (bool_decide_unpack _). vm_compute. exact I. }
    exists db', stored. rewrite H1. split; [reflexivity|].
    rewrite list_offers_unfold in H2. injection H2 as <-. exact H3.
Defined.

Lemma get_property_outcomes_witness :
  (exists detail,
     fst (get_property "loft" Sample.one_property) = HTTPException 400 detail)
  /\ get_property "2b2b2b2b2b2b2b2b2b2b2b2b" Sample.one_property
     = (HTTPException 404 "Property not found", Sample.one_property)
  /\ exists e doc,
      get_property "1A1a1a1a1a1a1a1a1a1a1a1a" Sample.one_property
      = (Ok doc, Sample.one_property)
      /\ serialized_from e doc.
Proof.
  split; [|split].
  - apply (get_property_outcomes "loft" Sample.one_property). reflexivity.
  - destruct (get_property_outcomes "2b2b2b2b2b2b2b2b2b2b2b2b" Sample.one_property)
      as (_ & _ & H & _).
    apply (H Sample.home_id); [reflexivity|].
    apply (bool_decide_unpack _). vm_compute. exact I.
  - destruct (get_property_outcomes "1A1a1a1a1a1a1a1a1a1a1a1a" Sample.one_property)
      as (_ & _ & _ & H & _).
    destruct (H Sample.loft_id) as (e & doc & _ & _ & Hget & Hdoc); [reflexivity| |].
    + apply (bool_decide_unpack _). vm_compute. exact I.
    + exists e, doc. split; [exact Hget|exact Hdoc].
Defined.

(** ** Validation *)

Lemma check_ap_errors {A B} (f : Checked (A -> B)) (x : Checked A) :
  errors_of (f <*> x) = errors_of f ++ errors_of x.
Proof. destruct f, x; cbn; by rewrite ?app_nil_r. Qed.

Lemma check_ap_failed_l {A B} (f : Checked (A -> B)) (x : Checked A) :
  (exists e, f = inl e) -> exists e, f <*> x = inl e.
Proof. intros [e ->]. destruct x; cbn; eauto. Qed.

Lemma check_ap_failed_r {A B} (f : Checked (A -> B)) (x : Checked A) :
  (exists e, x = inl e) -> exists e, f <*> x = inl e.
Proof. intros [e ->]. destruct f; cbn; eauto. Qed.

Lemma failed_errors {A} (c : Checked A) :
  (exists e, c = inl e) -> c = inl (errors_of c).
Proof. by intros [e ->]. Qed.

Lemma float_negative_not_ge0 (f : spec_float) :
  SFltb f (S754_zero false) = true -> SFleb (S754_zero false) f = false.
Proof. by destruct f as [[]|[]| |[] m e]. Qed.

Lemma int_ge0_negative (loc : string) (z : Z) :
  z < 0 -> int_ge0 loc (Some z) = inl [(loc, GreaterThanEqual)].
Proof. intros Hz. unfold int_ge0. destruct (Z.leb_spec 0 z); [lia|done]. Qed.

Lemma int_ge0_nonnegative (loc : string) (z : Z) :
  0 <= z -> int_ge0 loc (Some z) = inr z.
Proof. intros Hz. unfold int_ge0. destruct (Z.leb_spec 0 z); [done|lia]. Qed.

Lemma float_ge0_negative (loc : string) (f : spec_float) :
  SFltb f (S754_zero false) = true ->
  float_ge0 loc (Some f) = inl [(loc, GreaterThanEqual)].
Proof. intros Hf. unfold float_ge0. by rewrite float_negative_not_ge0. Qed.

Lemma float_ge0_nonnegative (loc : string) (f : spec_float) :
  SFleb (S754_zero false) f = true -> float_ge0 loc (Some f) = inr f.
Proof. intros Hf. unfold float_ge0. by rewrite Hf. Qed.

Lemma url_list_ok (http_url : string -> bool) (loc : string)
    (v : option (list string)) :
  Forall (fun u => http_url u = true) (default [] v) ->
  Property.url_list http_url loc v = inr (default [] v).
Proof.
  intros Hall. unfold Property.url_list.
  destruct (filter _ _) as [|u bad] eqn:E; [done|].
  assert (Hu : u ∈ filter (fun u => http_url u = false) (default [] v))
    by (rewrite E; left).
  apply list_elem_of_filter in Hu as [Hf Hin].
  rewrite Forall_forall in Hall. specialize (Hall u Hin). congruence.
Qed.

Lemma url_list_errors (http_url : string -> bool) (loc : string)
    (v : option (list string)) (e : string * ErrorType) :
  e ∈ errors_of (Property.url_list http_url loc v) -> e = (loc, UrlParsing).
Proof.
  unfold Property.url_list. destruct (filter _ _) as [|u bad]; cbn.
  - by intros ?%elem_of_nil.
  - intros [->|(x & -> & _)%list_elem_of_fmap]%elem_of_cons; done.
Qed.

Lemma Property_validate_errors (http_url : string -> bool) (r : Property.input) :
  errors_of (Property.validate http_url r)
  = errors_of (required "title" (Property.raw_title r))
    ++ errors_of (required "description" (Property.raw_description r))
    ++ errors_of (required "address" (Property.raw_address r))
    ++ errors_of (required "city" (Property.raw_city r))
    ++ errors_of (required "state" (Property.raw_state r))
    ++ errors_of (int_ge0 "price" (Property.raw_price r))
    ++ errors_of (int_ge0 "bedrooms" (Property.raw_bedrooms r))
    ++ errors_of (float_ge0 "bathrooms" (Property.raw_bathrooms r))
    ++ errors_of (int_ge0 "area_sqft" (Property.raw_area_sqft r))
    ++ errors_of (Property.url_list http_url "images" (Property.raw_images r)).
Proof.
  unfold Property.validate. rewrite !check_ap_errors. cbn [errors_of with_default].
  by rewrite !app_nil_r, !app_nil_l, <- !app_assoc.
Qed.

Lemma Offer_validate_errors (email_str : string -> bool) (r : Offer.input) :
  errors_of (Offer.validate email_str r)
  = errors_of (required "property_id" (Offer.raw_property_id r))
    ++ errors_of (required "full_name" (Offer.raw_full_name r))
    ++ errors_of (Offer.check_email email_str "email" (Offer.raw_email r))
    ++ errors_of (int_ge0 "amount" (Offer.raw_amount r)).
Proof.
  unfold Offer.validate. rewrite !check_ap_errors. cbn [errors_of with_default].
  by rewrite !app_nil_r, !app_nil_l, <- !app_assoc.
Qed.

(** A failed field fails the body. *)
Ltac field_fails H :=
  repeat first
    [ apply check_ap_failed_r; rewrite H; by eauto
    | apply check_ap_failed_l ].

Lemma rejected_intro {A} (body : Checked A) (loc : string) :
  (exists e, body = inl e) ->
  (loc, GreaterThanEqual) ∈ errors_of body ->
  rejected_before_store body loc.
Proof.
  intros Hfail Hin. exists (errors_of body).
  split; [by apply failed_errors|]. split; [done|].
  intros B handler db. destruct Hfail as [e ->]. reflexivity.
Qed.

Lemma Property_validate_ok (http_url : string -> bool)
    (t d a c s : string) (p b : Z) (f : spec_float) (q : Z)
    (st : option string) (imgs tgs : option (list string)) :
  0 <= p -> 0 <= b -> SFleb (S754_zero false) f = true -> 0 <= q ->
  Forall (fun u => http_url u = true) (default [] imgs) ->
  Property.validate http_url
    (Property.mk_input (Some t) (Some d) (Some a) (Some c) (Some s)
       (Some p) (Some b) (Some f) (Some q) st imgs tgs)
  = inr (Property.mk t d a c s p b f q
           (default "available" st) (default [] imgs) (default [] tgs)).
Proof.
  intros Hp Hb Hf Hq Hu. unfold Property.validate. cbn [Property.raw_title
    Property.raw_description Property.raw_address Property.raw_city
    Property.raw_state Property.raw_price Property.raw_bedrooms
    Property.raw_bathrooms Property.raw_area_sqft Property.raw_status
    Property.raw_images Property.raw_tags].
  rewrite !int_ge0_nonnegative, float_ge0_nonnegative, url_list_ok by done.
  reflexivity.
Qed.

Lemma required_errors {A} (loc : string) (v : option A) (e : string * ErrorType) :
  e ∈ errors_of (required loc v) -> e = (loc, Missing).
Proof. destruct v; cbn; [by intros ?%elem_of_nil|by intros ->%list_elem_of_singleton]. Qed.

Lemma check_email_errors (email_str : string -> bool) (loc : string)
    (v : option string) (e : string * ErrorType) :
  e ∈ errors_of (Offer.check_email email_str loc v) -> e.2 <> GreaterThanEqual.
Proof.
  unfold Offer.check_email. destruct v as [a|]; [destruct (email_str a)|]; cbn;
    first [by intros ?%elem_of_nil | by intros ->%list_elem_of_singleton].
Qed.

(** The error of a failed field is among the errors of the body. *)
Ltac in_errors :=
  repeat first
    [ by apply list_elem_of_singleton
    | apply elem_of_app; left; by apply list_elem_of_singleton
    | apply elem_of_app; right ].

Ltac some_field_fails Hfail :=
  repeat first [ apply check_ap_failed_r; exact Hfail | apply check_ap_failed_l ].

(** C6. A negative [price], [bedrooms], [bathrooms] or [area_sqft] of a
    property, and a negative [amount] of an offer, fail validation with a
    [ge=0] error at that field; the body is answered with the validation
    errors before any handler runs, the store unchanged, and [POST /offers]
    in particular writes nothing. When the numbers are not negative, no
    [ge=0] error is reported. *)
Theorem negative_numbers_rejected (http_url email_str : string -> bool) :
  (forall (r : Property.input) (z : Z), z < 0 ->
     (Property.raw_price r = Some z ->
      rejected_before_store (Property.validate http_url r) "price")
     /\ (Property.raw_bedrooms r = Some z ->
         rejected_before_store (Property.validate http_url r) "bedrooms")
     /\ (Property.raw_area_sqft r = Some z ->
         rejected_before_store (Property.validate http_url r) "area_sqft"))
  /\ (forall (r : Property.input) (f : spec_float),
      SFltb f (S754_zero false) = true ->
      Property.raw_bathrooms r = Some f ->
      rejected_before_store (Property.validate http_url r) "bathrooms")
  /\ (forall (r : Offer.input) (z : Z) (new_id : ObjectId) (db : Database),
      z < 0 -> Offer.raw_amount r = Some z ->
      rejected_before_store (Offer.validate email_str r) "amount"
      /\ exists errors,
          post_offers email_str r new_id db = (RequestValidationError errors, db))
  /\ (forall (r : Property.input) (p b q : Z) (f : spec_float),
      Property.raw_price r = Some p -> 0 <= p ->
      Property.raw_bedrooms r = Some b -> 0 <= b ->
      Property.raw_bathrooms r = Some f -> SFleb (S754_zero false) f = true ->
      Property.raw_area_sqft r = Some q -> 0 <= q ->
      forall loc, (loc, GreaterThanEqual) ∉ errors_of (Property.validate http_url r))
  /\ (forall (r : Offer.input) (z : Z),
      Offer.raw_amount r = Some z -> 0 <= z ->
      forall loc, (loc, GreaterThanEqual) ∉ errors_of (Offer.validate email_str r)).
Proof.
  split; [|split; [|split; [|split]]].
  - intros r z Hz. split; [|split]; intros Hr.
    + assert (Hfail : exists e, int_ge0 "price" (Property.raw_price r) = inl e)
        by (rewrite Hr, int_ge0_negative by done; eauto).
      apply rejected_intro; [unfold Property.validate; some_field_fails Hfail|].
      rewrite Property_validate_errors, Hr, int_ge0_negative by done.
      cbn [errors_of]. in_errors.
    + assert (Hfail : exists e, int_ge0 "bedrooms" (Property.raw_bedrooms r) = inl e)
        by (rewrite Hr, int_ge0_negative by done; eauto).
      apply rejected_intro; [unfold Property.validate; some_field_fails Hfail|].
      rewrite Property_validate_errors, Hr, int_ge0_negative by done.
      cbn [errors_of]. in_errors.
    + assert (Hfail : exists e, int_ge0 "area_sqft" (Property.raw_area_sqft r) = inl e)
        by (rewrite Hr, int_ge0_negative by done; eauto).
      apply rejected_intro; [unfold Property.validate; some_field_fails Hfail|].
      rewrite Property_validate_errors, Hr, int_ge0_negative by done.
      cbn [errors_of]. in_errors.
  - intros r f Hneg Hr.
    assert (Hfail : exists e, float_ge0 "bathrooms" (Property.raw_bathrooms r) = inl e)
      by (rewrite Hr, float_ge0_negative by done; eauto).
    apply rejected_intro; [unfold Property.validate; some_field_fails Hfail|].
    rewrite Property_validate_errors, Hr, float_ge0_negative by done.
    cbn [errors_of]. in_errors.
  - intros r z new_id db Hz Hr.
    assert (Hfail : exists e, int_ge0 "amount" (Offer.raw_amount r) = inl e)
      by (rewrite Hr, int_ge0_negative by done; eauto).
    assert (Hrej : rejected_before_store (Offer.validate email_str r) "amount").
    { apply rejected_intro; [unfold Offer.validate; some_field_fails Hfail|].
      rewrite Offer_validate_errors, Hr, int_ge0_negative by done.
      cbn [errors_of]. in_errors. }
    split; [done|]. destruct Hrej as (errors & _ & _ & Hbody).
    exists errors. apply Hbody.
  - intros r p b q f Hp Hp0 Hb Hb0 Hfail Hf0 Hq Hq0 loc.
    rewrite Property_validate_errors, Hp, Hb, Hfail, Hq.
    rewrite !int_ge0_nonnegative, float_ge0_nonnegative by done.
    cbn [errors_of app]. rewrite ?app_nil_r, !elem_of_app.
    intros [H|[H|[H|[H|[H|H]]]]];
      first [by apply required_errors in H | by apply url_list_errors in H].
  - intros r z Hr Hz loc.
    rewrite Offer_validate_errors, Hr, int_ge0_nonnegative by done.
    cbn [errors_of app]. rewrite ?app_nil_r, !elem_of_app.
    intros [H|[H|H]];
      first [by apply required_errors in H | by apply check_email_errors in H].
Qed.

Lemma negative_numbers_rejected_witness :
  rejected_before_store
    (Property.validate Sample.http_url
       (Property.mk_input (Some "A") (Some "d") (Some "1 Main St") (Some "Austin")
          (Some "TX") (Some (-1)) (Some 1) (Some (S754_finite false 1 0))
          (Some 500) None None None)) "price"
  /\ rejected_before_store
       (Property.validate Sample.http_url
          (Property.mk_input (Some "A") (Some "d") (Some "1 Main St") (Some "Austin")
             (Some "TX") (Some 100000) (Some 1) (Some (S754_finite true 3 (-1)))
             (Some 500) None None None)) "bathrooms"
  /\ exists errors,
      post_offers Sample.email_str
        (Offer.mk_input (Some "1a1a1a1a1a1a1a1a1a1a1a1a") (Some "Ada Buyer")
           (Some "ada@example.com") None (Some (-5)) None None)
        Sample.offer_id Sample.one_property
      = (RequestValidationError errors, Sample.one_property).
Proof.
  destruct (negative_numbers_rejected Sample.http_url Sample.email_str)
    as (Hint & Hfloat & Hoffer & _).
  split; [|split].
  - apply (Hint _ (-1)); [lia|reflexivity].
  - apply (Hfloat _ (S754_finite true 3 (-1))); reflexivity.
  - apply (Hoffer _ (-5) Sample.offer_id Sample.one_property); [lia|reflexivity].
Defined.

(** ** Text fields of a property *)

(** C8, amended. Each of [title], [description], [address], [city] and
    [state] is required: a body that lacks one of them fails validation
    with a [missing] error at that field. Any text is accepted for them,
    the empty text included: with the five present, the numbers not
    negative and the images well-formed, validation yields the model that
    carries the five texts as given. *)
Theorem property_text_fields (http_url : string -> bool) :
  (forall (r : Property.input),
     (Property.raw_title r = None ->
      exists e, Property.validate http_url r = inl e /\ ("title", Missing) ∈ e)
     /\ (Property.raw_description r = None ->
         exists e, Property.validate http_url r = inl e /\ ("description", Missing) ∈ e)
     /\ (Property.raw_address r = None ->
         exists e, Property.validate http_url r = inl e /\ ("address", Missing) ∈ e)
     /\ (Property.raw_city r = None ->
         exists e, Property.validate http_url r = inl e /\ ("city", Missing) ∈ e)
     /\ (Property.raw_state r = None ->
         exists e, Property.validate http_url r = inl e /\ ("state", Missing) ∈ e))
  /\ (forall (t d a c s : string) (p b : Z) (f : spec_float) (q : Z)
        (st : option string) (imgs tgs : option (list string)),
      0 <= p -> 0 <= b -> SFleb (S754_zero false) f = true -> 0 <= q ->
      Forall (fun u => http_url u = true) (default [] imgs) ->
      Property.validate http_url
        (Property.mk_input (Some t) (Some d) (Some a) (Some c) (Some s)
           (Some p) (Some b) (Some f) (Some q) st imgs tgs)
      = inr (Property.mk t d a c s p b f q
               (default "available" st) (default [] imgs) (default [] tgs))).
Proof.
  split; [|apply Property_validate_ok].
  intros r. repeat split; intros Hr.
  - assert (Hfail : exists e, required (A:=string) "title" (Property.raw_title r) = inl e)
      by (rewrite Hr; cbn; eauto).
    exists (errors_of (Property.validate http_url r)). split.
    + apply failed_errors. unfold Property.validate. some_field_fails Hfail.
    + rewrite Property_validate_errors, Hr. cbn [errors_of required]. in_errors.
  - assert (Hfail : exists e,
        required (A:=string) "description" (Property.raw_description r) = inl e)
      by (rewrite Hr; cbn; eauto).
    exists (errors_of (Property.validate http_url r)). split.
    + apply failed_errors. unfold Property.validate. some_field_fails Hfail.
    + rewrite Property_validate_errors, Hr. cbn [errors_of required]. in_errors.
  - assert (Hfail : exists e,
        required (A:=string) "address" (Property.raw_address r) = inl e)
      by (rewrite Hr; cbn; eauto).
    exists (errors_of (Property.validate http_url r)). split.
    + apply failed_errors. unfold Property.validate. some_field_fails Hfail.
    + rewrite Property_validate_errors, Hr. cbn [errors_of required]. in_errors.
  - assert (Hfail : exists e, required (A:=string) "city" (Property.raw_city r) = inl e)
      by (rewrite Hr; cbn; eauto).
    exists (errors_of (Property.validate http_url r)). split.
    + apply failed_errors. unfold Property.validate. some_field_fails Hfail.
    + rewrite Property_validate_errors, Hr. cbn [errors_of required]. in_errors.
  - assert (Hfail : exists e, required (A:=string) "state" (Property.raw_state r) = inl e)
      by (rewrite Hr; cbn; eauto).
    exists (errors_of (Property.validate http_url r)). split.
    + apply failed_errors. unfold Property.validate. some_field_fails Hfail.
    + rewrite Property_validate_errors, Hr. cbn [errors_of required]. in_errors.
Qed.

(** C8 as stated fails: a property whose five text fields are all the
    empty text passes validation. *)
Lemma empty_text_accepted_counterexample :
  Property.validate Sample.http_url
    (Property.mk_input (Some "") (Some "") (Some "") (Some "") (Some "")
       (Some 100000) (Some 1) (Some (S754_finite false 1 0)) (Some 500)
       None None None)
  = inr (Property.mk "" "" "" "" "" 100000 1 (S754_finite false 1 0) 500
           "available" [] []).
Proof. reflexivity. Qed.

Lemma property_text_fields_witness :
  (exists e,
     Property.validate Sample.http_url
       (Property.mk_input None (Some "d") (Some "1 Main St") (Some "Austin")
          (Some "TX") (Some 100000) (Some 1) (Some (S754_finite false 1 0))
          (Some 500) None None None) = inl e
     /\ ("title", Missing) ∈ e)
  /\ Property.validate Sample.http_url
       (Property.mk_input (Some "A") (Some "") (Some "1 Main St") (Some "Austin")
          (Some "TX") (Some 100000) (Some 1) (Some (S754_finite false 1 0))
          (Some 500) None (Some Sample.demo_imgs) None)
     = inr (Property.mk "A" "" "1 Main St" "Austin" "TX" 100000 1
              (S754_finite false 1 0) 500 "available" Sample.demo_imgs []).
Proof.
  destruct (property_text_fields Sample.http_url) as [Hmissing Hany].
  split.
  - apply Hmissing. reflexivity.
  - apply Hany; [lia|lia|reflexivity|lia|].
    repeat constructor.
Defined.

(** ** Settings *)

Lemma read_settings_unfold (db : Database) :
  read_settings db =
  match collection db "adminsettings" with
  | [] => (Ok (model_dump AdminSettings.defaults), db)
  | d :: _ => (Ok (serialize d), db)
  end.
Proof.
  unfold read_settings, bind, find_one. rewrite filter_matches_empty.
  destruct (collection db "adminsettings") as [|d c]; [done|].
  cbn [head]. by rewrite truthy_Some.
Qed.

(** C4. On a store without a settings document, Read Settings returns the
    five defaults of [AdminSettings] and nothing else, and the store still
    holds no settings document afterwards. When a settings document is
    stored, it is returned with each of its fields as stored and its
    identifier as text. The store is left as it was in both cases. *)
Theorem read_settings_outcomes (db : Database) :
  (collection db "adminsettings" = [] ->
   read_settings db
   = (Ok (list_to_map
            [ ("primary_color", VStr "#f97316");
              ("accent_color", VStr "#111827");
              ("hero_heading", VStr "Find your next place");
              ("hero_subheading",
               VStr "Modern homes, transparent offers, secure management.");
              ("announcement",
               VStr "New listings dropping weekly — submit an offer in minutes!") ]),
      db)
   /\ collection (snd (read_settings db)) "adminsettings" = [])
  /\ (forall d rest, collection db "adminsettings" = d :: rest ->
      exists doc,
        read_settings db = (Ok doc, db)
        /\ doc !! "_id" = Some (VStr (ObjectId_str (doc_id d)))
        /\ forall k, k <> "_id" -> doc !! k = doc_body d !! k)
  /\ snd (read_settings db) = db.
Proof.
  rewrite read_settings_unfold. split; [|split].
  - intros Hnone. rewrite Hnone. split; [|done].
    f_equal.
  - intros d rest Hd. rewrite Hd. exists (serialize d).
    split; [done|]. split; [apply serialize_lookup_id|].
    intros k Hk. by apply serialize_lookup_ne.
  - by destruct (collection db "adminsettings").
Qed.

Lemma read_settings_outcomes_witness :
  (exists doc,
     read_settings Sample.one_property = (Ok doc, Sample.one_property)
     /\ doc !! "hero_heading" = Some (VStr "Find your next place")
     /\ doc !! "_id" = None)
  /\ (exists doc,
       read_settings Sample.with_settings = (Ok doc, Sample.with_settings)
       /\ doc !! "_id" = Some (VStr "4d4d4d4d4d4d4d4d4d4d4d4d")
       /\ doc !! "hero_heading" = Some (VStr "Discover vibrant homes")).
Proof.
  split.
  - destruct (read_settings_outcomes Sample.one_property) as [H _].
    destruct H as [-> _]; [reflexivity|].
    eexists. split; [reflexivity|]. split; reflexivity.
  - destruct (read_settings_outcomes Sample.with_settings) as (_ & H & _).
    destruct (H (mkDocument Sample.settings_id (model_dump Sample.demo_settings)) [])
      as (doc & -> & Hid & Hk); [reflexivity|].
    exists doc. split; [reflexivity|]. split; [exact Hid|].
    rewrite Hk by done. reflexivity.
Defined.

(** Every field of a [SettingsUpdate] is a text or [None]. *)
Lemma SettingsUpdate_dump_values (payload : SettingsUpdate.t) (k : string) (v : Value) :
  model_dump payload !! k = Some v -> v = VNone \/ exists s, v = VStr s.
Proof.
  unfold model_dump, SettingsUpdate.dump. rewrite !lookup_insert, lookup_empty.
  destruct payload as [[a|] [b|] [c|] [d|] [e|]]; cbn [VOpt
    SettingsUpdate.primary_color SettingsUpdate.accent_color
    SettingsUpdate.hero_heading SettingsUpdate.hero_subheading
    SettingsUpdate.announcement];
    repeat case_decide; intros [= <-]; eauto.
Qed.

Lemma update_data_set (payload : SettingsUpdate.t) (k s : string) :
  model_dump payload !! k = Some (VStr s) ->
  update_data payload !! k = Some (VStr s).
Proof. intros Hk. unfold update_data. by apply map_lookup_filter_Some_2. Qed.

Lemma update_data_unset (payload : SettingsUpdate.t) (k : string) :
  (forall s, model_dump payload !! k <> Some (VStr s)) ->
  update_data payload !! k = None.
Proof.
  intros Hk. unfold update_data. apply map_lookup_filter_None. right.
  intros v Hv. destruct (SettingsUpdate_dump_values _ _ _ Hv) as [->|[s ->]].
  - cbn. tauto.
  - by destruct (Hk s).
Qed.

Lemma update_data_nonempty (payload : SettingsUpdate.t) (k s : string) :
  model_dump payload !! k = Some (VStr s) -> update_data payload <> ∅.
Proof.
  intros Hk%update_data_set Hempty.
  rewrite Hempty, lookup_empty in Hk. discriminate Hk.
Qed.

Lemma update_settings_unfold (payload : SettingsUpdate.t) (new_id : ObjectId)
    (db : Database) :
  update_data payload <> ∅ ->
  update_settings payload new_id db =
  read_settings
    (<["adminsettings" :=
         match collection db "adminsettings" with
         | [] => [mkDocument new_id (update_data payload)]
         | d :: rest => set_fields (update_data payload) d :: rest
         end]> db).
Proof.
  intros Hne. unfold update_settings. cbn zeta.
  rewrite bool_decide_eq_false_2 by done.
  unfold bind, update_one_upsert.
  destruct (collection db "adminsettings") as [|d rest]; cbn [update_first app].
  - by rewrite (right_id ∅ (∪)).
  - by rewrite matches_empty.
Qed.

(** C5, amended. When the payload sets some field, Update Settings merges
    the fields that are set into the first settings document, or inserts a
    document that holds just those fields when none is stored, and returns
    the settings document as Read Settings reads it from the store after
    the write. The fields that are set take the payload's values. With a
    stored document, every field that is not set keeps its prior value and
    the identifier stays; with none stored, the fields that are not set are
    absent from the new document. *)
Theorem update_settings_merges
    (payload : SettingsUpdate.t) (new_id : ObjectId) (db : Database) :
  (exists k s, model_dump payload !! k = Some (VStr s)) ->
  exists (d' : Document) (rest : list Document),
    update_settings payload new_id db
    = (Ok (serialize d'), <["adminsettings" := d' :: rest]> db)
    /\ read_settings (snd (update_settings payload new_id db))
       = update_settings payload new_id db
    /\ (forall k s, model_dump payload !! k = Some (VStr s) ->
        doc_body d' !! k = Some (VStr s))
    /\ match collection db "adminsettings" with
       | d :: rest0 =>
           doc_id d' = doc_id d /\ rest = rest0
           /\ forall k, (forall s, model_dump payload !! k <> Some (VStr s)) ->
                        doc_body d' !! k = doc_body d !! k
       | [] =>
           doc_id d' = new_id /\ rest = []
           /\ forall k, (forall s, model_dump payload !! k <> Some (VStr s)) ->
                        doc_body d' !! k = None
       end.
Proof.
  intros (k0 & s0 & Hset).
  rewrite update_settings_unfold by (by eapply update_data_nonempty).
  assert (Hread : forall d' rest,
             read_settings (<["adminsettings" := d' :: rest]> db)
             = (Ok (serialize d'), <["adminsettings" := d' :: rest]> db)).
  { intros d' rest. by rewrite read_settings_unfold, collection_insert. }
  destruct (collection db "adminsettings") as [|d rest0].
  - exists (mkDocument new_id (update_data payload)), [].
    rewrite Hread. cbn [snd]. rewrite Hread.
    split; [done|]. split; [done|]. cbn [doc_body doc_id].
    split; [intros k s; apply update_data_set|].
    split; [done|]. split; [done|]. apply update_data_unset.
  - exists (set_fields (update_data payload) d), rest0.
    rewrite Hread. cbn [snd]. rewrite Hread.
    split; [done|]. split; [done|]. cbn [set_fields doc_body doc_id].
    split.
    { intros k s Hk. apply lookup_union_Some_l. by apply update_data_set. }
    split; [done|]. split; [done|].
    intros k Hk. by rewrite lookup_union_r by (by apply update_data_unset).
Qed.

(** C5 as stated fails on a store without a settings document: Read
    Settings gives the default primary colour before, and after an update
    that sets the announcement only, the settings read back hold the
    announcement and no primary colour. *)
Lemma update_settings_defaults_counterexample :
  exists before after,
    fst (read_settings ∅) = Ok before
    /\ fst (update_settings Sample.announce Sample.settings_id ∅) = Ok after
    /\ before !! "primary_color" = Some (VStr "#f97316")
    /\ after !! "primary_color" = None
    /\ after !! "announcement" = Some (VStr "Open house on Sunday").
Proof. eexists _, _. repeat split; reflexivity. Qed.

Lemma update_settings_merges_witness :
  exists d',
    update_settings Sample.announce Sample.offer_id Sample.with_settings
    = (Ok (serialize d'), <["adminsettings" := [d']]> Sample.with_settings)
    /\ doc_id d' = Sample.settings_id
    /\ doc_body d' !! "announcement" = Some (VStr "Open house on Sunday")
    /\ doc_body d' !! "hero_heading" = Some (VStr "Discover vibrant homes").
Proof.
  destruct (update_settings_merges Sample.announce Sample.offer_id Sample.with_settings)
    as (d' & rest & Hu & _ & Hset & Hid & Hrest & Hkeep).
  - exists "announcement", "Open house on Sunday". reflexivity.
  - exists d'. subst rest. split; [exact Hu|]. split; [exact Hid|].
    split; [by apply Hset|].
    rewrite Hkeep; [reflexivity|].
    intros s. vm_compute. discriminate.
Defined.

(** C10. With every field of the payload unset, Update Settings is Read
    Settings: it writes nothing, so that a store without a settings
    document still has none, and it returns the stored document if there
    is one and the defaults otherwise. *)
Theorem update_settings_nothing_set (new_id : ObjectId) (db : Database) :
  update_settings (SettingsUpdate.mk None None None None None) new_id db
  = read_settings db
  /\ snd (update_settings (SettingsUpdate.mk None None None None None) new_id db) = db
  /\ fst (update_settings (SettingsUpdate.mk None None None None None) new_id db)
     = match collection db "adminsettings" with
       | [] => Ok (model_dump AdminSettings.defaults)
       | d :: _ => Ok (serialize d)
       end.
Proof.
  assert (Hnone : update_data (SettingsUpdate.mk None None None None None) = ∅)
    by (vm_compute; reflexivity).
  assert (Hsame : update_settings (SettingsUpdate.mk None None None None None)
                    new_id db = read_settings db).
  { unfold update_settings. cbn zeta. rewrite Hnone.
    by rewrite bool_decide_eq_true_2. }
  rewrite Hsame, read_settings_unfold. clear Hnone Hsame.
  destruct (collection db "adminsettings"); repeat split; reflexivity.
Qed.

(** ** Identifiers in answers *)

Lemma serialized_from_all (l : list Document) :
  Forall2 serialized_from l (serialize <$> l).
Proof.
  induction l as [|d l IH]; [constructor|].
  rewrite fmap_cons. constructor; [apply serialize_serialized_from|exact IH].
Qed.

(** C9. Every document returned by List Properties, Get Property, List
    Offers, and by Read Settings when a settings document is stored, is a
    stored document of the collection with its identifier turned into
    text: the answer holds under [_id] a text, the hexadecimal text of
    that document's own identifier, which decodes to the identifier's
    bytes, and holds every other field as stored. The lists answer for
    stored documents one by one, in the order of the store. *)
Theorem returned_ids_are_text (db : Database) :
  (forall city status docs,
     fst (list_properties city status db) = Ok docs ->
     exists stored,
       stored `sublist_of` collection db "property"
       /\ Forall2 serialized_from stored docs)
  /\ (forall prop_id doc,
      fst (get_property prop_id db) = Ok doc ->
      exists d, d ∈ collection db "property" /\ serialized_from d doc)
  /\ (forall property_id docs,
      fst (list_offers property_id db) = Ok docs ->
      exists stored,
        stored `sublist_of` collection db "offer"
        /\ Forall2 serialized_from stored docs)
  /\ (forall doc,
      collection db "adminsettings" <> [] ->
      fst (read_settings db) = Ok doc ->
      exists d rest,
        collection db "adminsettings" = d :: rest /\ serialized_from d doc).
Proof.
  split; [|split; [|split]].
  - intros city status docs. rewrite list_properties_unfold. intros [= <-].
    match goal with |- context [serialize <$> ?l] => exists l end.
    split; [apply sublist_filter|apply serialized_from_all].
  - intros prop_id doc. rewrite get_property_unfold.
    destruct (ObjectId_of_str prop_id) as [oid|]; [|discriminate].
    destruct (head _) as [d|] eqn:Hd; [|discriminate]. intros [= <-].
    apply head_Some_elem_of, list_elem_of_filter in Hd as [_ Hd].
    exists d. split; [exact Hd|apply serialize_serialized_from].
  - intros property_id docs. rewrite list_offers_unfold. intros [= <-].
    match goal with |- context [serialize <$> ?l] => exists l end.
    split; [apply sublist_filter|apply serialized_from_all].
  - intros doc Hsome. rewrite read_settings_unfold.
    destruct (collection db "adminsettings") as [|d c]; [done|]. intros [= <-].
    exists d, c. split; [reflexivity|apply serialize_serialized_from].
Qed.

(** * Further properties of the handlers *)

(** ** Identifier texts *)

Lemma hex_value_digit (c : ascii) (v : N) :
  Hex.value c = Some v -> (v < 16)%N /\ Hex.digit v = lower_char c.
Proof.
  destruct c as [[] [] [] [] [] [] [] []]; intros H; vm_compute in H;
    try discriminate H; injection H as <-; split; reflexivity.
Qed.

(** A text that is all digit pairs, without whitespace, is the text of
    its bytes up to the case of the letters. *)
Lemma hex_hexlify_fromhex (s : string) (bs : list Byte.byte) :
  Hex.fromhex s = Some bs ->
  String.length s = (2 * List.length bs)%nat ->
  Hex.hexlify bs = lower s.
Proof.
  assert (Hn : forall (n : nat) (t : string) (cs : list Byte.byte),
             (String.length t <= n)%nat -> Hex.fromhex t = Some cs ->
             String.length t = (2 * List.length cs)%nat ->
             Hex.hexlify cs = lower t).
  { induction n as [|n IH]; intros t cs Hle.
    - destruct t; cbn in Hle; [|lia]. intros [= <-]. reflexivity.
    - destruct t as [|h t']; cbn [Hex.fromhex].
      + intros [= <-]. reflexivity.
      + cbn in Hle. destruct (Hex.is_space h).
        * intros Ht%hex_fromhex_length Hlen. cbn in Hlen. lia.
        * destruct t' as [|l t'']; [discriminate|].
          destruct (Hex.value h) as [hi|] eqn:Hh; [|discriminate].
          destruct (Hex.value l) as [lo|] eqn:Hl; [|discriminate].
          destruct (Byte.of_N _) as [b|] eqn:Hb; [|discriminate].
          destruct (Hex.fromhex t'') as [cs'|] eqn:E; [|discriminate].
          intros [= <-] Hlen. cbn in Hle, Hlen. cbn [Hex.hexlify lower].
          apply Byte.to_of_N in Hb.
          apply hex_value_digit in Hh as [Hhi Hh], Hl as [Hlo Hl].
          assert (Hdiv : (Byte.to_N b / 16 = hi)%N)
            by (symmetry; apply N.div_unique with lo; lia).
          assert (Hmod : (Byte.to_N b mod 16 = lo)%N)
            by (symmetry; apply N.mod_unique with hi; lia).
          rewrite Hdiv, Hmod, Hh, Hl. do 2 f_equal.
          apply IH; [lia|exact E|lia]. }
  apply (Hn (String.length s)). lia.
Qed.

Lemma ObjectId_of_str_lower (s : string) (oid : ObjectId) :
  ObjectId_of_str s = Some oid -> ObjectId_valid oid ->
  ObjectId_str oid = lower s.
Proof.
  intros (Hlen & Hhex & _)%ObjectId_of_str_length Hvalid.
  apply hex_hexlify_fromhex; [exact Hhex|].
  unfold ObjectId_valid in Hvalid. lia.
Qed.

(** X1. A text that [ensure_object_id] accepts has 24 characters and
    decodes to at most 12 bytes. When it decodes to 12 bytes, the text of
    the identifier is the accepted text in lower case, and is accepted in
    turn with the same identifier. When it decodes to fewer, as a text
    with whitespace does, the text of the identifier is refused with
    400. *)
Theorem ensure_object_id_canonical (id_str : string) (oid : ObjectId) (db : Database) :
  fst (ensure_object_id id_str db) = Ok oid ->
  String.length id_str = 24%nat
  /\ (List.length oid <= 12)%nat
  /\ (ObjectId_valid oid ->
      ObjectId_str oid = lower id_str
      /\ ensure_object_id (ObjectId_str oid) db = (Ok oid, db))
  /\ (~ ObjectId_valid oid ->
      ensure_object_id (ObjectId_str oid) db = (HTTPException 400 "Invalid id", db)).
Proof.
  unfold ensure_object_id at 1.
  destruct (ObjectId_of_str id_str) as [o|] eqn:Hs; [|discriminate].
  intros [= ->]. pose proof (ObjectId_of_str_length _ _ Hs) as (Hlen & _ & Hle).
  split; [exact Hlen|]. split; [exact Hle|]. split.
  - intros Hvalid. split; [by apply ObjectId_of_str_lower|].
    unfold ensure_object_id. by rewrite (ObjectId_of_str_str _ Hvalid).
  - intros Hshort. unfold ensure_object_id, ObjectId_of_str, ObjectId_str.
    rewrite hex_length_hexlify.
    destruct (Nat.eqb (2 * List.length oid) 24) eqn:E; [|reflexivity].
    apply Nat.eqb_eq in E. exfalso. apply Hshort. unfold ObjectId_valid. lia.
Qed.

Lemma ensure_object_id_canonical_witness :
  ensure_object_id "1a1a1a1a1a1a1a1a1a1a1a" ∅ = (HTTPException 400 "Invalid id", ∅)
  /\ ObjectId_str Sample.loft_id = lower "1A1A1A1a1a1a1a1a1a1a1a1a".
Proof.
  split.
  - destruct (ensure_object_id_canonical "1a1a1a1a1a1a1a1a1a1a1a  "
                (replicate 11 Byte.x1a) ∅) as (_ & _ & _ & Hshort); [reflexivity|].
    apply Hshort. unfold ObjectId_valid. discriminate.
  - destruct (ensure_object_id_canonical "1A1A1A1a1a1a1a1a1a1a1a1a" Sample.loft_id ∅)
      as (_ & _ & Hfull & _); [reflexivity|].
    apply Hfull. reflexivity.
Defined.

(** ** Reading back what was returned *)

Lemma with_id_head (oid : ObjectId) (c : list Document) (d : Document) :
  head (with_id oid c) = Some d -> d ∈ c /\ doc_id d = oid.
Proof.
  intros Hd. apply head_Some_elem_of in Hd. unfold with_id in Hd.
  apply list_elem_of_filter in Hd as [Hm Hd]. split; [exact Hd|].
  rewrite matches_id in Hm. by apply bool_decide_spec in Hm.
Qed.

Lemma with_id_unique (c : list Document) (d : Document) :
  NoDup (ids c) -> d ∈ c -> head (with_id (doc_id d) c) = Some d.
Proof.
  unfold with_id, ids. induction c as [|x c IH]; intros Hnd Hd.
  - by apply elem_of_nil in Hd.
  - rewrite fmap_cons in Hnd. apply NoDup_cons in Hnd as [Hx Hnd].
    apply elem_of_cons in Hd as [->|Hd].
    + rewrite filter_cons_True; [reflexivity|].
      by rewrite matches_id, bool_decide_spec.
    + rewrite filter_cons_False; [by apply IH|].
      rewrite matches_id, bool_decide_spec. intros Heq.
      apply Hx. rewrite Heq. by apply list_elem_of_fmap_2.
Qed.

(** X2. In a store whose properties carry 12-byte identifiers: when Get
    Property returns a document, asking again with the identifier text
    found under [_id] in the answer returns the same document, even where
    the text first asked with differs from it (by the case of its
    letters). *)
Theorem get_property_again (prop_id : string) (doc : PyDict) (db : Database) :
  Forall ObjectId_valid (ids (collection db "property")) ->
  fst (get_property prop_id db) = Ok doc ->
  exists id,
    doc !! "_id" = Some (VStr id)
    /\ id = lower prop_id
    /\ get_property id db = (Ok doc, db).
Proof.
  intros Hstore. rewrite get_property_unfold.
  destruct (ObjectId_of_str prop_id) as [oid|] eqn:Hs; [|discriminate].
  destruct (head _) as [d|] eqn:Hd; [|discriminate].
  intros [= <-]. pose proof (with_id_head _ _ _ Hd) as [Hin Hid].
  assert (Hvalid : ObjectId_valid oid).
  { rewrite Forall_forall in Hstore. apply Hstore.
    rewrite <- Hid. unfold ids. by apply list_elem_of_fmap_2. }
  exists (ObjectId_str oid). split; [by rewrite serialize_lookup_id, Hid|].
  split; [by apply ObjectId_of_str_lower|].
  rewrite get_property_unfold, (ObjectId_of_str_str _ Hvalid).
  by rewrite Hd.
Qed.

Lemma get_property_again_witness :
  exists doc,
    get_property "1A1A1A1A1A1A1A1A1A1A1A1A" Sample.one_property
      = (Ok doc, Sample.one_property)
    /\ doc !! "_id" = Some (VStr "1a1a1a1a1a1a1a1a1a1a1a1a")
    /\ get_property "1a1a1a1a1a1a1a1a1a1a1a1a" Sample.one_property
       = (Ok doc, Sample.one_property).
Proof.
  destruct (get_property_again "1A1A1A1A1A1A1A1A1A1A1A1A"
              (serialize (mkDocument Sample.loft_id (model_dump Sample.loft)))
              Sample.one_property) as (id & Hid & Hlow & Hget);
    [repeat constructor|reflexivity|].
  exists (serialize (mkDocument Sample.loft_id (model_dump Sample.loft))).
  split; [reflexivity|]. rewrite Hlow in Hid, Hget.
  split; [exact Hid|exact Hget].
Defined.

(** X3. In a store whose properties carry 12-byte identifiers, no two the
    same, every document that List Properties returns is returned by Get
    Property for the text under its [_id]. *)
Theorem listed_property_can_be_got
    (city status : option string) (docs : list PyDict) (db : Database) :
  NoDup (ids (collection db "property")) ->
  Forall ObjectId_valid (ids (collection db "property")) ->
  fst (list_properties city status db) = Ok docs ->
  Forall (fun doc => exists id, doc !! "_id" = Some (VStr id)
                                /\ get_property id db = (Ok doc, db)) docs.
Proof.
  intros Hnd Hvalid. rewrite list_properties_unfold. intros [= <-].
  apply Forall_fmap, Forall_forall. intros d [_ Hd]%list_elem_of_filter.
  exists (ObjectId_str (doc_id d)). split; [apply serialize_lookup_id|].
  rewrite get_property_unfold.
  rewrite Forall_forall in Hvalid.
  rewrite ObjectId_of_str_str
    by (apply Hvalid; unfold ids; by apply list_elem_of_fmap_2).
  by rewrite with_id_unique.
Qed.

Lemma listed_property_can_be_got_witness :
  exists doc,
    fst (list_properties (Some "Los Angeles") None Sample.one_property) = Ok [doc]
    /\ get_property "1a1a1a1a1a1a1a1a1a1a1a1a" Sample.one_property
       = (Ok doc, Sample.one_property).
Proof.
  exists (serialize (mkDocument Sample.loft_id (model_dump Sample.loft))).
  split; [reflexivity|].
  pose proof (listed_property_can_be_got (Some "Los Angeles") None
                [serialize (mkDocument Sample.loft_id (model_dump Sample.loft))]
                Sample.one_property) as H.
  specialize (H ltac:(apply (bool_decide_unpack _); vm_compute; exact I)
                ltac:(repeat constructor) eq_refl).
  apply Forall_cons in H as [(id & Hid & Hget) _].
  rewrite serialize_lookup_id in Hid. injection Hid as <-. exact Hget.
Defined.

(** ** Offers and the text of [property_id] *)

Lemma Offer_validate_ok (email_str : string -> bool)
    (pid name addr : string) (phone : option string) (z : Z)
    (msg st : option string) :
  email_str addr = true -> 0 <= z ->
  Offer.validate email_str
    (Offer.mk_input (Some pid) (Some name) (Some addr) phone (Some z) msg st)
  = inr (Offer.mk pid name addr phone z msg (default "pending" st)).
Proof.
  intros He Hz. unfold Offer.validate, Offer.check_email.
  cbn [Offer.raw_property_id Offer.raw_full_name Offer.raw_email Offer.raw_phone
       Offer.raw_amount Offer.raw_message Offer.raw_status].
  rewrite He, int_ge0_nonnegative by done. reflexivity.
Qed.

(** X4. Validation of an offer does not look at the form of
    [property_id]: a body that is valid otherwise and whose [property_id]
    is not an identifier text passes validation, and [POST /offers] answers
    it 400 (not 422, and not 404 whatever the store holds), storing
    nothing. *)
Theorem post_offers_invalid_id (email_str : string -> bool)
    (pid name addr : string) (phone : option string) (z : Z)
    (msg st : option string) (new_id : ObjectId) (db : Database) :
  email_str addr = true -> 0 <= z ->
  ObjectId_of_str pid = None ->
  post_offers email_str
    (Offer.mk_input (Some pid) (Some name) (Some addr) phone (Some z) msg st)
    new_id db
  = (HTTPException 400 "Invalid id", db).
Proof.
  intros He Hz Hpid. unfold post_offers.
  rewrite Offer_validate_ok by done. cbn [from_body].
  rewrite submit_offer_unfold. cbn [Offer.property_id]. by rewrite Hpid.
Qed.

Lemma post_offers_invalid_id_witness :
  post_offers Sample.email_str
    (Offer.mk_input (Some "loft") (Some "Ada Buyer") (Some "ada@example.com")
       None (Some 950000) None None)
    Sample.offer_id Sample.one_property
  = (HTTPException 400 "Invalid id", Sample.one_property).
Proof.
  apply post_offers_invalid_id; [reflexivity|lia|reflexivity].
Defined.

(** X5. After an offer was accepted, List Offers with a filter text that
    is not empty returns what it returned before, followed by the new offer
    exactly when the filter text is the offer's [property_id] as it was
    sent. An offer sent with an identifier in capital letters is thus not
    listed under the lower-case text that the properties carry. *)
Theorem offers_listed_by_sent_text
    (offer : Offer.t) (new_id : ObjectId) (db : Database)
    (answer : PyDict) (p : string) :
  fst (submit_offer offer new_id db) = Ok answer ->
  p <> "" ->
  exists earlier,
    list_offers (Some p) db = (Ok earlier, db)
    /\ fst (list_offers (Some p) (snd (submit_offer offer new_id db)))
       = Ok (earlier
             ++ if bool_decide (p = Offer.property_id offer)
                then [serialize (mkDocument new_id (model_dump offer))]
                else []).
Proof.
  rewrite submit_offer_unfold.
  destruct (ObjectId_of_str _) as [oid|]; [|discriminate].
  destruct (head _) as [d|]; [|discriminate].
  intros _ Hp. eexists. split; [apply list_offers_unfold|].
  cbn [snd]. rewrite list_offers_unfold, collection_insert. cbn [fst].
  rewrite filter_app, fmap_app. do 2 f_equal.
  destruct p as [|a p']; [done|].
  assert (Hfield : as_dict (mkDocument new_id (model_dump offer)) !! "property_id"
                   = Some (VStr (Offer.property_id offer))).
  { unfold as_dict, model_dump, Offer.dump. cbn [doc_body doc_id].
    rewrite lookup_insert_ne by discriminate. apply lookup_insert_eq. }
  case_bool_decide as Heq.
  - rewrite filter_cons_True; [reflexivity|].
    cbn [condition_holds]. apply bool_decide_spec. by rewrite Hfield, Heq.
  - rewrite filter_cons_False; [reflexivity|].
    cbn [condition_holds]. rewrite bool_decide_spec, Hfield.
    intros [= Hx]. by apply Heq.
Qed.

Lemma offers_listed_by_sent_text_witness :
  fst (list_offers (Some "1a1a1a1a1a1a1a1a1a1a1a1a")
         (snd (submit_offer
                 (Offer.mk "1A1A1A1A1A1A1A1A1A1A1A1A" "Ada Buyer" "ada@example.com"
                    None 950000 None "pending")
                 Sample.offer_id Sample.one_property)))
  = Ok [].
Proof.
  destruct (offers_listed_by_sent_text
               (Offer.mk "1A1A1A1A1A1A1A1A1A1A1A1A" "Ada Buyer" "ada@example.com"
                  None 950000 None "pending")
               Sample.offer_id Sample.one_property
               (<["id" := VStr "3c3c3c3c3c3c3c3c3c3c3c3c"]>
                  (<["status" := VStr "submitted"]> ∅))
               "1a1a1a1a1a1a1a1a1a1a1a1a")
    as (earlier & Hbefore & Hafter); [reflexivity|discriminate|].
  rewrite Hafter. rewrite list_offers_unfold in Hbefore.
  injection Hbefore as <-. reflexivity.
Defined.

(** ** Filters keep the order of the store *)

(** X6. What List Properties returns with filters is a sub-list, in the
    same order, of what it returns without; likewise for List Offers. *)
Theorem filtered_listing_is_sublist
    (city status property_id : option string) (db : Database) :
  (exists part all,
     list_properties city status db = (Ok part, db)
     /\ list_properties None None db = (Ok all, db)
     /\ part `sublist_of` all)
  /\ (exists part all,
      list_offers property_id db = (Ok part, db)
      /\ list_offers None db = (Ok all, db)
      /\ part `sublist_of` all).
Proof.
  split.
  - eexists _, _. split; [apply list_properties_unfold|].
    split; [apply list_properties_unfold|].
    apply fmap_sublist. cbn [condition_holds andb].
    etrans; [apply sublist_filter|].
    induction (collection db "property") as [|d c IH]; [done|].
    rewrite filter_cons_True by done. by constructor.
  - eexists _, _. split; [apply list_offers_unfold|].
    split; [apply list_offers_unfold|].
    apply fmap_sublist. cbn [condition_holds].
    etrans; [apply sublist_filter|].
    induction (collection db "offer") as [|d c IH]; [done|].
    rewrite filter_cons_True by done. by constructor.
Qed.

(** ** When validation succeeds *)

Lemma check_ap_inr {A B} (f : Checked (A -> B)) (x : Checked A) (b : B) :
  f <*> x = inr b -> exists g a, f = inr g /\ x = inr a /\ b = g a.
Proof. destruct f, x; cbn; try discriminate. intros [= <-]. eauto. Qed.

Lemma required_inr {A} (loc : string) (v : option A) (a : A) :
  required loc v = inr a -> v = Some a.
Proof. destruct v; cbn; [by intros [= ->]|discriminate]. Qed.

Lemma int_ge0_inr (loc : string) (v : option Z) (z : Z) :
  int_ge0 loc v = inr z -> v = Some z /\ 0 <= z.
Proof.
  destruct v as [y|]; cbn; [|discriminate].
  destruct (Z.leb_spec 0 y); [|discriminate]. by intros [= ->].
Qed.

Lemma float_ge0_inr (loc : string) (v : option spec_float) (f : spec_float) :
  float_ge0 loc v = inr f -> v = Some f /\ SFleb (S754_zero false) f = true.
Proof.
  destruct v as [y|]; cbn; [|discriminate].
  destruct (SFleb (S754_zero false) y) eqn:E; [|discriminate].
  by intros [= <-].
Qed.

Lemma url_list_inr (http_url : string -> bool) (loc : string)
    (v : option (list string)) (l : list string) :
  Property.url_list http_url loc v = inr l ->
  l = default [] v /\ Forall (fun u => http_url u = true) l.
Proof.
  unfold Property.url_list.
  destruct (filter _ _) as [|u bad] eqn:E; [|discriminate].
  intros [= <-]. split; [reflexivity|].
  apply Forall_forall. intros u Hu.
  destruct (http_url u) eqn:Hb; [reflexivity|].
  assert (Hin : u ∈ filter (fun u => http_url u = false) (default [] v))
    by (by apply list_elem_of_filter).
  rewrite E in Hin. by apply elem_of_nil in Hin.
Qed.

(** X7. A property body passes validation exactly when the five texts
    are present, the four numbers are present and not negative, and every
    image is a well-formed URL; [status], [images] and [tags] may be
    absent and nothing else is looked at. *)
Theorem property_validation_iff (http_url : string -> bool) (r : Property.input) :
  (exists p, Property.validate http_url r = inr p)
  <-> (is_Some (Property.raw_title r)
       /\ is_Some (Property.raw_description r)
       /\ is_Some (Property.raw_address r)
       /\ is_Some (Property.raw_city r)
       /\ is_Some (Property.raw_state r)
       /\ (exists z, Property.raw_price r = Some z /\ 0 <= z)
       /\ (exists z, Property.raw_bedrooms r = Some z /\ 0 <= z)
       /\ (exists f, Property.raw_bathrooms r = Some f
                     /\ SFleb (S754_zero false) f = true)
       /\ (exists z, Property.raw_area_sqft r = Some z /\ 0 <= z)
       /\ Forall (fun u => http_url u = true) (default [] (Property.raw_images r))).
Proof.
  split.
  - intros [p Hp]. unfold Property.validate in Hp.
    apply check_ap_inr in Hp as (g12 & tg & Hp & _ & _).
    apply check_ap_inr in Hp as (g11 & im & Hp & Him & _).
    apply check_ap_inr in Hp as (g10 & st & Hp & _ & _).
    apply check_ap_inr in Hp as (g9 & q & Hp & Hq & _).
    apply check_ap_inr in Hp as (g8 & f & Hp & Hf & _).
    apply check_ap_inr in Hp as (g7 & b & Hp & Hb & _).
    apply check_ap_inr in Hp as (g6 & pr & Hp & Hpr & _).
    apply check_ap_inr in Hp as (g5 & s & Hp & Hs & _).
    apply check_ap_inr in Hp as (g4 & c & Hp & Hc & _).
    apply check_ap_inr in Hp as (g3 & a & Hp & Ha & _).
    apply check_ap_inr in Hp as (g2 & d & Hp & Hd & _).
    apply check_ap_inr in Hp as (g1 & t & _ & Ht & _).
    apply required_inr in Ht, Hd, Ha, Hc, Hs.
    apply int_ge0_inr in Hpr, Hb, Hq. apply float_ge0_inr in Hf.
    apply url_list_inr in Him as [-> Him].
    rewrite Ht, Hd, Ha, Hc, Hs. repeat split; eauto.
  - intros ([t Ht] & [d Hd] & [a Ha] & [c Hc] & [s Hs] & (p & Hp & Hp0)
            & (b & Hb & Hb0) & (f & Hf & Hf0) & (q & Hq & Hq0) & Hu).
    destruct r as [rt rd ra rc rs rp rb rf rq rst rim rtg]. cbn in *. subst.
    eexists. by apply Property_validate_ok.
Qed.

(** X8. An offer body passes validation exactly when [property_id],
    [full_name], [email] and [amount] are present, the e-mail address is
    well-formed and the amount is not negative; the model then carries
    [property_id], [full_name], [phone], [amount] and [message] as sent,
    and [status] as sent or [pending] when it was absent. *)
Theorem offer_validation_iff (email_str : string -> bool) (r : Offer.input) :
  ((exists o, Offer.validate email_str r = inr o)
   <-> (is_Some (Offer.raw_property_id r)
        /\ is_Some (Offer.raw_full_name r)
        /\ (exists a, Offer.raw_email r = Some a /\ email_str a = true)
        /\ (exists z, Offer.raw_amount r = Some z /\ 0 <= z)))
  /\ (forall o, Offer.validate email_str r = inr o ->
      Offer.raw_property_id r = Some (Offer.property_id o)
      /\ Offer.raw_full_name r = Some (Offer.full_name o)
      /\ Offer.raw_phone r = Offer.phone o
      /\ Offer.raw_amount r = Some (Offer.amount o)
      /\ Offer.raw_message r = Offer.message o
      /\ Offer.status o = default "pending" (Offer.raw_status r)).
Proof.
  assert (Hinv : forall o, Offer.validate email_str r = inr o ->
            Offer.raw_property_id r = Some (Offer.property_id o)
            /\ Offer.raw_full_name r = Some (Offer.full_name o)
            /\ (Offer.raw_email r = Some (Offer.email o)
                /\ email_str (Offer.email o) = true)
            /\ Offer.raw_phone r = Offer.phone o
            /\ (Offer.raw_amount r = Some (Offer.amount o) /\ 0 <= Offer.amount o)
            /\ Offer.raw_message r = Offer.message o
            /\ Offer.status o = default "pending" (Offer.raw_status r)).
  { intros o Ho. unfold Offer.validate in Ho.
    apply check_ap_inr in Ho as (g7 & st & Ho & Hst & ->).
    apply check_ap_inr in Ho as (g6 & msg & Ho & Hmsg & ->).
    apply check_ap_inr in Ho as (g5 & z & Ho & Hz & ->).
    apply check_ap_inr in Ho as (g4 & ph & Ho & Hph & ->).
    apply check_ap_inr in Ho as (g3 & em & Ho & Hem & ->).
    apply check_ap_inr in Ho as (g2 & nm & Ho & Hnm & ->).
    apply check_ap_inr in Ho as (g1 & pid & Ho & Hpid & ->).
    injection Ho as <-. injection Hst as <-. injection Hmsg as <-.
    injection Hph as <-. cbn.
    apply required_inr in Hpid, Hnm. apply int_ge0_inr in Hz as [Hz Hz0].
    unfold Offer.check_email in Hem.
    destruct (Offer.raw_email r) as [e|]; [|discriminate Hem].
    destruct (email_str e) eqn:He; [|discriminate Hem].
    injection Hem as <-. by repeat split. }
  split; [split|].
  - intros [o Ho]. destruct (Hinv o Ho) as (Hp & Hn & [He He'] & _ & [Hz Hz'] & _).
    rewrite Hp, Hn. repeat split; eauto.
  - intros ([pid Hpid] & [nm Hnm] & (a & Ha & Ha') & (z & Hz & Hz')).
    destruct r as [rp rn re rph ra rm rs]. cbn in *. subst.
    eexists. by apply Offer_validate_ok.
  - intros o Ho. destruct (Hinv o Ho) as (Hp & Hn & _ & Hph & [Hz _] & Hm & Hs).
    by repeat split.
Qed.

(** ** Repeated and successive updates of the settings *)

Lemma read_settings_snd (db : Database) : snd (read_settings db) = db.
Proof.
  rewrite read_settings_unfold. by destruct (collection db "adminsettings").
Qed.

Lemma update_settings_empty (payload : SettingsUpdate.t) (new_id : ObjectId)
    (db : Database) :
  update_data payload = ∅ -> update_settings payload new_id db = read_settings db.
Proof.
  intros Hempty. unfold update_settings. cbn zeta.
  rewrite bool_decide_eq_true_2 by exact Hempty. reflexivity.
Qed.

Lemma update_settings_store (payload : SettingsUpdate.t) (new_id : ObjectId)
    (db : Database) :
  update_data payload <> ∅ ->
  exists d rest,
    update_settings payload new_id db
    = (Ok (serialize d), <["adminsettings" := d :: rest]> db)
    /\ doc_body d = update_data payload ∪ stored_settings db
    /\ match collection db "adminsettings" with
       | d0 :: rest0 => doc_id d = doc_id d0 /\ rest = rest0
       | [] => doc_id d = new_id /\ rest = []
       end.
Proof.
  intros Hne. rewrite update_settings_unfold by exact Hne. clear Hne.
  unfold stored_settings.
  destruct (collection db "adminsettings") as [|d0 rest0].
  - exists (mkDocument new_id (update_data payload)), [].
    rewrite read_settings_unfold, collection_insert.
    split; [reflexivity|]. split; [|split; reflexivity].
    cbn [doc_body]. by rewrite (right_id ∅ (∪)).
  - exists (set_fields (update_data payload) d0), rest0.
    rewrite read_settings_unfold, collection_insert.
    split; [reflexivity|]. split; [reflexivity|split; reflexivity].
Qed.

(** X9. Sending the same settings payload a second time changes neither
    the store nor the answer. *)
Theorem update_settings_twice (payload : SettingsUpdate.t)
    (id1 id2 : ObjectId) (db : Database) :
  update_settings payload id2 (snd (update_settings payload id1 db))
  = update_settings payload id1 db.
Proof.
  destruct (decide (update_data payload = ∅)) as [Hempty|Hne].
  - rewrite !update_settings_empty by exact Hempty.
    by rewrite read_settings_snd.
  - destruct (update_settings_store payload id1 db Hne)
      as (d & rest & -> & Hbody & _).
    cbn [snd]. rewrite update_settings_unfold by exact Hne. clear Hne.
    rewrite collection_insert, insert_insert_eq.
    assert (Hsame : set_fields (update_data payload) d = d).
    { destruct d as [i b]. unfold set_fields. cbn [doc_id doc_body] in *.
      f_equal. rewrite Hbody. by rewrite (assoc_L (∪)), (idemp_L (∪)). }
    rewrite Hsame. clear Hsame Hbody.
    rewrite read_settings_unfold, collection_insert. reflexivity.
Qed.

(** X10. Update Settings changes no collection other than the settings,
    and never adds a settings document next to a stored one: with a
    document stored, the documents keep their number, order and
    identifiers; with none stored, at most one is created. *)
Theorem update_settings_frame (payload : SettingsUpdate.t)
    (new_id : ObjectId) (db : Database) :
  (forall name, name <> "adminsettings" ->
     collection (snd (update_settings payload new_id db)) name = collection db name)
  /\ (collection db "adminsettings" <> [] ->
      ids (collection (snd (update_settings payload new_id db)) "adminsettings")
      = ids (collection db "adminsettings"))
  /\ (collection db "adminsettings" = [] ->
      (length (collection (snd (update_settings payload new_id db)) "adminsettings")
       <= 1)%nat).
Proof.
  destruct (decide (update_data payload = ∅)) as [Hempty|Hne].
  - rewrite update_settings_empty by exact Hempty. rewrite read_settings_snd.
    clear Hempty. split; [done|]. split; [done|]. intros ->. cbn. lia.
  - destruct (update_settings_store payload new_id db Hne)
      as (d & rest & -> & _ & Hshape).
    clear Hne. cbn [snd]. rewrite collection_insert.
    split; [intros name Hname; by rewrite collection_insert_ne|].
    destruct (collection db "adminsettings") as [|d0 rest0].
    + destruct Hshape as [_ ->]. split; [done|]. intros _. cbn. lia.
    + destruct Hshape as [Hid ->]. split; [|done].
      intros _. unfold ids. by rewrite !fmap_cons, Hid.
Qed.

(** X11. After two updates of the settings, the first of which sets some
    field, the settings document holds, for each field, the value of the
    second payload where it sets the field, and otherwise the value of the
    first payload where that one sets it; the second answer is that
    document. *)
Theorem update_settings_then (first second : SettingsUpdate.t)
    (id1 id2 : ObjectId) (db : Database) :
  (exists k s, model_dump first !! k = Some (VStr s)) ->
  exists d rest,
    update_settings second id2 (snd (update_settings first id1 db))
    = (Ok (serialize d), <["adminsettings" := d :: rest]> db)
    /\ (forall k s, model_dump second !! k = Some (VStr s) ->
        doc_body d !! k = Some (VStr s))
    /\ (forall k s, model_dump first !! k = Some (VStr s) ->
        (forall s', model_dump second !! k <> Some (VStr s')) ->
        doc_body d !! k = Some (VStr s)).
Proof.
  intros (k0 & s0 & Hset).
  destruct (update_settings_store first id1 db (update_data_nonempty _ _ _ Hset))
    as (d1 & rest1 & -> & Hbody1 & _).
  cbn [snd]. clear k0 s0 Hset.
  destruct (decide (update_data second = ∅)) as [Hempty|Hne].
  - exists d1, rest1. rewrite update_settings_empty by exact Hempty.
    rewrite read_settings_unfold, collection_insert.
    split; [reflexivity|]. split.
    + intros k s Hk%update_data_set. rewrite Hempty, lookup_empty in Hk.
      discriminate Hk.
    + intros k s Hk _. rewrite Hbody1.
      apply lookup_union_Some_l. by apply update_data_set.
  - exists (set_fields (update_data second) d1), rest1.
    rewrite update_settings_unfold by exact Hne. clear Hne.
    rewrite collection_insert, insert_insert_eq.
    rewrite read_settings_unfold, collection_insert.
    split; [reflexivity|]. cbn [set_fields doc_body]. split.
    + intros k s Hk. apply lookup_union_Some_l. by apply update_data_set.
    + intros k s Hk Hnot.
      rewrite lookup_union_r by (by apply update_data_unset).
      rewrite Hbody1. apply lookup_union_Some_l. by apply update_data_set.
Qed.

Lemma update_settings_then_witness :
  exists d,
    fst (update_settings Sample.announce Sample.offer_id
           (snd (update_settings
                   (SettingsUpdate.mk (Some "#000000") None None None (Some "Soon"))
                   Sample.settings_id ∅)))
    = Ok (serialize d)
    /\ doc_body d !! "announcement" = Some (VStr "Open house on Sunday")
    /\ doc_body d !! "primary_color" = Some (VStr "#000000").
Proof.
  destruct (update_settings_then
              (SettingsUpdate.mk (Some "#000000") None None None (Some "Soon"))
              Sample.announce Sample.settings_id Sample.offer_id ∅)
    as (d & rest & Hu & Hsecond & Hfirst).
  - exists "announcement", "Soon". reflexivity.
  - exists d. rewrite Hu. split; [reflexivity|]. split.
    + by apply Hsecond.
    + apply Hfirst; [reflexivity|]. intros s'. vm_compute. discriminate.
Defined.

(** ** The diagnostics report *)






(** X16. When the store answers, the diagnostics report lists the first
    ten collection names in their order, all of them when there are ten or
    fewer, and says that the store is connected and working. *)
Theorem test_database_collections (names : list string)
    (DATABASE_URL DATABASE_NAME : option string) :
  exists listed,
    test_database (Some (Returns names)) DATABASE_URL DATABASE_NAME !! "collections"
    = Some (VList listed)
    /\ (length listed <= 10)%nat
    /\ listed `prefix_of` names
    /\ ((length names <= 10)%nat -> listed = names)
    /\ ((10 <= length names)%nat -> length listed = 10%nat)
    /\ test_database (Some (Returns names)) DATABASE_URL DATABASE_NAME !! "database"
       = Some (VStr "✅ Connected & Working")
    /\ test_database (Some (Returns names)) DATABASE_URL DATABASE_NAME
         !! "connection_status"
       = Some (VStr "Connected").
Proof.
  exists (take 10 names). unfold test_database. cbn zeta.
  split; [by simplify_map_eq|].
  split; [rewrite length_take; lia|].
  split; [apply prefix_take|].
  split; [intros Hle; by apply take_ge|].
  split; [intros Hge; by apply length_take_le|].
  split; by simplify_map_eq.
Qed.


